(** * Matching and reputation engine: a shallow embedding

    The definitions below embed the parts of [accounts/models.py],
    [jobs/models.py], [jobs/views.py] and [core/views.py] that make up the
    skill inference, review eligibility, reputation scoring and job
    recommendation logic.  Python values are modelled as follows:

    - [str] is [string] (ASCII); [lower], [title], [strip] act on the ASCII
      range only;
    - [int] is [Z], [float] is an exact rational [Q] (the scores involved
      stay far from any rounding tie of binary floating point);
    - a raised exception is the [Raise] outcome of the [M] monad, which also
      threads the database, because the ORM calls read and write it. *)

From Stdlib Require Import ZArith QArith Qround String Ascii List Bool Lia.
From Stdlib Require Import Lqa Sorted.
From stdpp Require Import gmap strings list.

Local Open Scope string_scope.
Local Open Scope Z_scope.

(** ** Python strings *)

Module PyStr.

Definition is_upper (c : ascii) : bool :=
  let n := nat_of_ascii c in (Nat.leb 65 n && Nat.leb n 90)%bool.

Definition is_lower (c : ascii) : bool :=
  let n := nat_of_ascii c in (Nat.leb 97 n && Nat.leb n 122)%bool.

Definition is_cased (c : ascii) : bool := (is_upper c || is_lower c)%bool.

Definition to_lower (c : ascii) : ascii :=
  if is_upper c then ascii_of_nat (nat_of_ascii c + 32) else c.

Definition to_upper (c : ascii) : ascii :=
  if is_lower c then ascii_of_nat (nat_of_ascii c - 32) else c.

(** [str.isspace] on one ASCII character: space, \t, \n, \v, \f, \r and
    the four separators 28..31. *)
Definition is_space (c : ascii) : bool :=
  let n := nat_of_ascii c in
  (Nat.eqb n 32 || (Nat.leb 9 n && Nat.leb n 13)
   || (Nat.leb 28 n && Nat.leb n 31))%bool.

Fixpoint map_chars (f : ascii -> ascii) (s : string) : string :=
  match s with
  | EmptyString => EmptyString
  | String c s' => String (f c) (map_chars f s')
  end.

(** [s.lower()] *)
Definition lower (s : string) : string := map_chars to_lower s.

(** [s.replace(a, b)] for one-character [a] and [b]. *)
Definition replace_char (a b : ascii) (s : string) : string :=
  map_chars (fun c => if Ascii.eqb c a then b else c) s.

(** [s.title()]: a cased character is upper-cased when the previous
    character is not cased, lower-cased otherwise. *)
Fixpoint title_from (prev_cased : bool) (s : string) : string :=
  match s with
  | EmptyString => EmptyString
  | String c s' =>
      String (if prev_cased then to_lower c else to_upper c)
             (title_from (is_cased c) s')
  end.

Definition title (s : string) : string := title_from false s.

(** [needle in hay] *)
Fixpoint contains (needle hay : string) : bool :=
  (String.prefix needle hay
   || match hay with
      | EmptyString => false
      | String _ hay' => contains needle hay'
      end)%bool.

(** [s.split(sep)] for a one-character separator: the accumulator [cur]
    holds the current part, reversed. *)
Fixpoint split_from (sep : ascii) (cur : string) (s : string) : list string :=
  match s with
  | EmptyString => [cur]
  | String c s' =>
      if Ascii.eqb c sep then cur :: split_from sep EmptyString s'
      else split_from sep (cur ++ String c EmptyString) s'
  end.

Definition split (sep : ascii) (s : string) : list string :=
  split_from sep EmptyString s.

Fixpoint lstrip (s : string) : string :=
  match s with
  | EmptyString => EmptyString
  | String c s' => if is_space c then lstrip s' else s
  end.

Fixpoint rstrip (s : string) : string :=
  match s with
  | EmptyString => EmptyString
  | String c s' =>
      match rstrip s' with
      | EmptyString => if is_space c then EmptyString else String c EmptyString
      | r => String c r
      end
  end.

(** [s.strip()] *)
Definition strip (s : string) : string := rstrip (lstrip s).

(** Truth value of a string: non-empty. *)
Definition truthy (s : string) : bool :=
  match s with EmptyString => false | _ => true end.

End PyStr.

(** ** Exceptions, values and the database monad *)

Inductive exn : Type :=
| AttributeError (cls attr : string)
| NameError (name : string)
| TypeError (msg : string).

Inductive outcome (A : Type) : Type :=
| Ok (a : A)
| Raise (e : exn).

Arguments Ok {A} a.
Arguments Raise {A} e.

(** The values an attribute of a model instance can hold. *)
Inductive PyVal : Type :=
| VNone
| VBool (b : bool)
| VInt (n : Z)
| VStr (s : string)
| VFile (name : string).

(** [bool(v)]; a [FieldFile] is true when it has a name. *)
Definition truthy (v : PyVal) : bool :=
  match v with
  | VNone => false
  | VBool b => b
  | VInt n => negb (n =? 0)
  | VStr s => PyStr.truthy s
  | VFile name => PyStr.truthy name
  end.

(** ** Rows of the tables (the columns the engine reads) *)

(** [accounts.User]: the columns of [AbstractUser] and of the class body
    (password and timestamps left out). *)
Record User : Type := mkUser {
  user_pk : nat;
  username : string;
  first_name : string;
  last_name : string;
  email : string;
  is_staff : bool;
  is_active : bool;
  is_superuser : bool;
  role : string;
  phone_number : string;
  profile_picture : string;
  is_phone_verified : bool;
  is_profile_verified : bool;
  is_verified : bool;
  verification_type : string;
  verification_details : string;
  bio : string;
  location : string;
  date_of_birth : option Z;
  availability_status : bool;
  government_id : string;
  id_number : string
}.

Record Skill : Type := mkSkill {
  skill_pk : nat;
  skill_name : string;
  skill_description : string;
  skill_category : string
}.

(** [jobs.Job]; dates are day numbers, timestamps are integers. *)
Record Job : Type := mkJob {
  job_pk : nat;
  job_title : string;
  job_description : string;
  job_category_id : nat;
  job_poster_id : nat;
  job_location : string;
  job_event_date : Z;
  job_status : string;
  job_is_urgent : bool;
  job_created_at : Z
}.

Record JobApplication : Type := mkJobApplication {
  app_pk : nat;
  app_job_id : nat;
  app_volunteer_id : nat;
  app_status : string;
  app_relevant_experience : string
}.

Record JobReview : Type := mkJobReview {
  review_pk : nat;
  review_job_id : nat;
  review_reviewer_id : nat;
  review_reviewee_id : nat;
  review_rating : Z
}.

(** The database.  [Skill.name] is [unique=True], so the skill table is a
    map keyed by the name; the two many-to-many relations are sets of
    (owner pk, skill pk) pairs, as their through tables are. *)
Record DB : Type := mkDB {
  jobs : list Job;
  applications : list JobApplication;
  reviews : list JobReview;
  skills : gmap string Skill;
  next_skill_pk : nat;
  user_skills : gset (nat * nat);
  job_required_skills : gset (nat * nat)
}.

(** A computation reads and writes the database and returns or raises. *)
Definition M (A : Type) : Type := DB -> outcome A * DB.

Definition ret {A} (a : A) : M A := fun db => (Ok a, db).

Definition raise {A} (e : exn) : M A := fun db => (Raise e, db).

Definition bind {A B} (m : M A) (k : A -> M B) : M B :=
  fun db =>
    match m db with
    | (Ok a, db') => k a db'
    | (Raise e, db') => (Raise e, db')
    end.

Notation "x <- m ;; k" := (bind m (fun x => k))
  (at level 100, m at next level, right associativity).

(** Reading the database. *)
Definition query {A} (f : DB -> A) : M A := fun db => (Ok (f db), db).

(** [for x in xs: body x] *)
Fixpoint for_each {A} (xs : list A) (body : A -> M unit) : M unit :=
  match xs with
  | [] => ret tt
  | x :: xs' => _ <- body x ;; for_each xs' body
  end.

(** [[f x for x in xs]] with a body that may raise. *)
Fixpoint map_M {A B} (f : A -> M B) (xs : list A) : M (list B) :=
  match xs with
  | [] => ret []
  | x :: xs' => y <- f x ;; ys <- map_M f xs' ;; ret (y :: ys)
  end.

(** ** Numbers *)

(** [round(x)]: to the nearest integer, ties to the even one. *)
Definition py_round (x : Q) : Z :=
  let f := Qfloor x in
  let r := (x - inject_Z f)%Q in
  match (r ?= 1 # 2)%Q with
  | Lt => f
  | Gt => f + 1
  | Eq => if Z.even f then f else f + 1
  end.

(** [round(x, 1)] *)
Definition py_round1 (x : Q) : Q := (inject_Z (py_round (x * 10)) / 10)%Q.

Definition Qmin (x y : Q) : Q := if Qle_bool x y then x else y.

(** ** Names, query sets *)

(** The built-in names the embedded functions use.  (No built-in of Python
    is called [Q].) *)
Definition builtins : list string :=
  [ "set"; "any"; "min"; "round"; "sum"; "len"; "getattr"; "range"; "list" ].

(** Evaluating a bare name: function locals, then module globals, then
    built-ins; [NameError] when it is bound in none of them. *)
Definition lookup_name (locals globals : list string) (name : string) : M unit :=
  if existsb (String.eqb name) (locals ++ globals ++ builtins)%list then ret tt
  else raise (NameError name).

(** A [django.db.models.Q] built from [location__icontains] lookups joined
    by [|]: the list of its needles; [Q()] is the empty list. *)
Definition Qobj : Type := list string.

(** [field__icontains=needle] *)
Definition icontains (needle field : string) : bool :=
  PyStr.contains (PyStr.lower needle) (PyStr.lower field).

(** [queryset.filter(q)]: an empty [Q] filters nothing out. *)
Definition filter_location_Q (q : Qobj) (rows : list Job) : list Job :=
  match q with
  | [] => rows
  | _ => List.filter (fun j => existsb (fun needle => icontains needle (job_location j)) q) rows
  end.

(** The loop building [location_queries] from the comma-separated parts. *)
Definition location_queries (parts : list string) : Qobj :=
  fold_left
    (fun (q : Qobj) part =>
       let part := PyStr.strip part in
       if PyStr.truthy part then (q ++ [part])%list else q)
    parts [].

(** [queryset.order_by(...)]: a stable insertion sort; [before a b] says
    that [a] sorts strictly before [b]; rows that tie keep the order of the
    table. *)
Fixpoint insert_row (before : Job -> Job -> bool) (j : Job) (l : list Job) : list Job :=
  match l with
  | [] => [j]
  | x :: l' => if before x j then x :: insert_row before j l' else j :: x :: l'
  end.

Definition order_by (before : Job -> Job -> bool) (l : list Job) : list Job :=
  fold_right (insert_row before) [] l.

(** [order_by('-is_urgent', '-created_at')] *)
Definition urgent_then_newest (a b : Job) : bool :=
  if Bool.eqb (job_is_urgent a) (job_is_urgent b)
  then job_created_at b <? job_created_at a
  else job_is_urgent a.


(** [Job.objects.filter(status='published', event_date__gte=today)] *)
Definition published_from (today : Z) (db : DB) : list Job :=
  List.filter (fun j => String.eqb (job_status j) "published"
                        && (today <=? job_event_date j))
              (jobs db).

(** ** accounts/models.py *)

Module Accounts.

(** The data attributes of a [User] instance, by name. *)
Definition User_column (self : User) (name : string) : option PyVal :=
  if String.eqb name "id" then Some (VInt (Z.of_nat (user_pk self)))
  else if String.eqb name "pk" then Some (VInt (Z.of_nat (user_pk self)))
  else if String.eqb name "username" then Some (VStr (username self))
  else if String.eqb name "first_name" then Some (VStr (first_name self))
  else if String.eqb name "last_name" then Some (VStr (last_name self))
  else if String.eqb name "email" then Some (VStr (email self))
  else if String.eqb name "is_staff" then Some (VBool (is_staff self))
  else if String.eqb name "is_active" then Some (VBool (is_active self))
  else if String.eqb name "is_superuser" then Some (VBool (is_superuser self))
  else if String.eqb name "role" then Some (VStr (role self))
  else if String.eqb name "phone_number" then Some (VStr (phone_number self))
  else if String.eqb name "profile_picture" then Some (VFile (profile_picture self))
  else if String.eqb name "is_phone_verified" then Some (VBool (is_phone_verified self))
  else if String.eqb name "is_profile_verified" then Some (VBool (is_profile_verified self))
  else if String.eqb name "is_verified" then Some (VBool (is_verified self))
  else if String.eqb name "verification_type" then Some (VStr (verification_type self))
  else if String.eqb name "verification_details" then Some (VStr (verification_details self))
  else if String.eqb name "bio" then Some (VStr (bio self))
  else if String.eqb name "location" then Some (VStr (location self))
  else if String.eqb name "date_of_birth" then
    Some (match date_of_birth self with Some d => VInt d | None => VNone end)
  else if String.eqb name "availability_status" then Some (VBool (availability_status self))
  else if String.eqb name "government_id" then Some (VFile (government_id self))
  else if String.eqb name "id_number" then Some (VStr (id_number self))
  else None.

(** The other names a [User] instance answers to: the columns left out of
    the record (password and timestamps), the properties and methods of
    the class, and its relations.  [jobs_completed] is a column of
    [UserProfile], reached as [user.profile.jobs_completed]; [User] has no
    attribute of that name. *)
Definition User_members : list string :=
  [ "password"; "last_login"; "date_joined"; "groups"; "user_permissions";
    "ROLE_CHOICES"; "phone_regex"; "skills"; "created_at"; "updated_at";
    "is_volunteer"; "is_admin_user"; "can_post_jobs"; "can_apply_for_jobs";
    "can_manage_users"; "auto_detect_skills"; "get_recommended_jobs";
    "average_rating"; "total_reviews_count"; "reviews_given_count";
    "rating_distribution"; "positive_review_percentage";
    "reputation_score"; "reputation_level";
    "_calculate_profile_completeness"; "can_leave_review_for";
    "get_recent_reviews"; "get_featured_reviews";
    "profile"; "posted_jobs"; "volunteer_applications"; "given_reviews";
    "received_reviews"; "helpful_reviews"; "review_reports";
    "resolved_reports"; "saved_jobs"; "verified_requests";
    "verificationrequest_set" ].

(** [getattr(self, name)] / [self.name] for a data attribute: the value
    of the column, [AttributeError] for a name that is not one.  (The
    names of [User_members] are not looked up through this function.) *)
Definition getattr (self : User) (name : string) : M PyVal :=
  match User_column self name with
  | Some v => ret v
  | None => raise (AttributeError "User" name)
  end.

(** A value used as a number in arithmetic. *)
Definition as_number (v : PyVal) : M Q :=
  match v with
  | VInt n => ret (inject_Z n)
  | VBool b => ret (if b then 1 else 0)%Q
  | _ => raise (TypeError "unsupported operand type(s) for *")
  end.

(** [JobReview.objects.filter(reviewee=self)] *)
Definition received_reviews (self : User) (db : DB) : list JobReview :=
  filter (fun r => review_reviewee_id r = user_pk self) (reviews db).

Definition sum_ratings (rs : list JobReview) : Z :=
  fold_right (fun r acc => review_rating r + acc) 0 rs.

(** [reviews.aggregate(models.Avg('rating'))['rating__avg']] on a
    non-empty selection. *)
Definition Avg_rating (rs : list JobReview) : Q :=
  (inject_Z (sum_ratings rs) / inject_Z (Z.of_nat (length rs)))%Q.

Definition average_rating (self : User) : M Q :=
  rs <- query (received_reviews self) ;;
  match rs with
  | _ :: _ => ret (py_round1 (Avg_rating rs))
  | [] => ret 0%Q
  end.

Definition total_reviews_count (self : User) : M Z :=
  rs <- query (received_reviews self) ;;
  ret (Z.of_nat (length rs)).

Definition fields_to_check : list string :=
  [ "first_name"; "last_name"; "bio"; "location";
    "phone_number"; "profile_picture" ].

Definition _calculate_profile_completeness (self : User) : M Q :=
  vals <- map_M (getattr self) fields_to_check ;;
  let completed_fields := length (filter (fun v => truthy v = true) vals) in
  ret (inject_Z (Z.of_nat completed_fields)
       / inject_Z (Z.of_nat (length fields_to_check)))%Q.

(** The five components of the score, as functions of what they read. *)
Definition rating_score (average_rating : Q) : Q :=
  ((average_rating / 5) * 50)%Q.

Definition review_count_score (total_reviews_count : Z) : Z :=
  Z.min (total_reviews_count * 2) 20.

Definition verification_score (is_verified : bool) : Z :=
  if is_verified then 15 else 0.

Definition profile_score (completeness : Q) : Q := (completeness * 10)%Q.

Definition activity_score (jobs_completed : Q) : Q :=
  Qmin (jobs_completed * (1 # 2)) 5.

Definition total_score (rating review_count verification profile activity : Q) : Q :=
  (rating + review_count + verification + profile + activity)%Q.

Definition reputation_score (self : User) : M Z :=
  avg <- average_rating self ;;
  let rating_score := rating_score avg in
  cnt <- total_reviews_count self ;;
  let review_count_score := review_count_score cnt in
  let verification_score := verification_score (is_verified self) in
  completeness <- _calculate_profile_completeness self ;;
  let profile_score := profile_score completeness in
  jobs_completed <- getattr self "jobs_completed" ;;
  jobs_completed <- as_number jobs_completed ;;
  let activity_score := activity_score jobs_completed in
  let total_score :=
    total_score rating_score (inject_Z review_count_score)
                (inject_Z verification_score) profile_score activity_score in
  ret (Z.min (py_round total_score) 100).

Record Level : Type := mkLevel {
  level : string;
  color : string;
  icon : string
}.

(** The threshold chain of [reputation_level]. *)
Definition level_of_score (score : Z) : Level :=
  if 90 <=? score then mkLevel "Elite" "warning" "fas fa-crown"
  else if 75 <=? score then mkLevel "Excellent" "success" "fas fa-star"
  else if 60 <=? score then mkLevel "Good" "info" "fas fa-thumbs-up"
  else if 40 <=? score then mkLevel "Fair" "secondary" "fas fa-user"
  else mkLevel "New" "light" "fas fa-seedling".

Definition reputation_level (self : User) : M Level :=
  score <- reputation_score self ;;
  ret (level_of_score score).

(** *** Review eligibility *)

(** [JobApplication.objects.filter(job=job, volunteer=volunteer,
    status='accepted').exists()] *)
Definition accepted_application_exists (job : Job) (volunteer : User) (db : DB) : bool :=
  existsb (fun a => Nat.eqb (app_job_id a) (job_pk job)
                    && Nat.eqb (app_volunteer_id a) (user_pk volunteer)
                    && String.eqb (app_status a) "accepted")
          (applications db).

(** [JobReview.objects.filter(job=job, reviewer=reviewer,
    reviewee=reviewee).exists()] *)
Definition review_exists (job : Job) (reviewer reviewee : User) (db : DB) : bool :=
  existsb (fun r => Nat.eqb (review_job_id r) (job_pk job)
                    && Nat.eqb (review_reviewer_id r) (user_pk reviewer)
                    && Nat.eqb (review_reviewee_id r) (user_pk reviewee))
          (reviews db).

(** [user == job.poster]: model instances are equal when their primary
    keys are. *)
Definition is_poster (user : User) (job : Job) : bool :=
  Nat.eqb (user_pk user) (job_poster_id job).

Definition msg_not_worked_together : string :=
  "You haven't worked together on this job".
Definition msg_not_completed : string :=
  "Job must be completed before leaving reviews".
Definition msg_already_reviewed : string :=
  "You have already reviewed this person for this job".
Definition msg_can_review : string := "Can leave review".

Definition can_leave_review_for (self user : User) (job : Job) : M (bool * string) :=
  worked_together <-
    (if is_poster self job then query (accepted_application_exists job user)
     else if is_poster user job then query (accepted_application_exists job self)
     else ret false) ;;
  if negb worked_together then ret (false, msg_not_worked_together)
  else if negb (String.eqb (job_status job) "completed") then
    ret (false, msg_not_completed)
  else
    existing_review <- query (review_exists job self user) ;;
    if existing_review then ret (false, msg_already_reviewed)
    else ret (true, msg_can_review).

(** *** Skill inference *)

Definition skill_keywords : list (string * list string) :=
  [ ("photography", ["photo"; "camera"; "shoot"; "photographer"]);
    ("event_management", ["manage"; "organize"; "coordinate"; "planning"]);
    ("customer_service", ["customer"; "service"; "reception"; "front desk"]);
    ("technical_support", ["technical"; "tech"; "computer"; "it"; "sound"]);
    ("sales", ["sales"; "sell"; "marketing"; "promotion"]);
    ("security", ["security"; "guard"; "safety"]);
    ("catering", ["food"; "catering"; "kitchen"; "serve"]);
    ("decoration", ["decor"; "decoration"; "design"; "setup"]);
    ("transportation", ["driver"; "transport"; "delivery"]);
    ("communication", ["presenter"; "mc"; "anchor"; "speaking"]) ].

(** [JobApplication.objects.filter(volunteer=self, status='accepted')
    .select_related('job')]: each accepted application joined with its
    job. *)
Definition accepted_apps (self : User) (db : DB) : list (JobApplication * Job) :=
  flat_map
    (fun a =>
       if Nat.eqb (app_volunteer_id a) (user_pk self)
          && String.eqb (app_status a) "accepted"
       then match List.find (fun j => Nat.eqb (job_pk j) (app_job_id a)) (jobs db) with
            | Some j => [(a, j)]
            | None => []
            end
       else [])
    (applications db).

(** [Job.objects.filter(poster=self)] *)
Definition posted_jobs (self : User) (db : DB) : list Job :=
  List.filter (fun j => Nat.eqb (job_poster_id j) (user_pk self)) (jobs db).

(** The inner loop over [skill_keywords.items()] for one text. *)
Definition detect_in (job_text : string) (detected_skills : gset string) : gset string :=
  fold_left
    (fun detected '(skill_name, keywords) =>
       if existsb (fun keyword => PyStr.contains keyword job_text) keywords
       then detected ∪ {[ skill_name ]}
       else detected)
    skill_keywords detected_skills.

Definition app_text (app : JobApplication) (job : Job) : string :=
  PyStr.lower
    (job_title job ++ " " ++ job_description job ++ " "
     ++ (if PyStr.truthy (app_relevant_experience app)
         then app_relevant_experience app else "")).

Definition job_text (job : Job) : string :=
  PyStr.lower (job_title job ++ " " ++ job_description job).

(** The value of [detected_skills] after the two analysis loops. *)
Definition detected_skills (self : User) (db : DB) : gset string :=
  let after_apps :=
    fold_left (fun detected '(app, job) => detect_in (app_text app job) detected)
              (accepted_apps self db) ∅ in
  fold_left (fun detected job => detect_in (job_text job) detected)
            (posted_jobs self db) after_apps.

(** [Skill.objects.get_or_create(name=name, defaults={'description': d})]:
    the row of that name, created with the next primary key when there is
    none. *)
Definition get_or_create (name description : string) : M (Skill * bool) :=
  fun db =>
    match skills db !! name with
    | Some skill => (Ok (skill, false), db)
    | None =>
        let skill := mkSkill (next_skill_pk db) name description "" in
        (Ok (skill, true),
         mkDB (jobs db) (applications db) (reviews db)
              (<[name := skill]> (skills db)) (S (next_skill_pk db))
              (user_skills db) (job_required_skills db))
    end.

(** [self.skills.add(skill)] *)
Definition skills_add (self : User) (skill : Skill) : M unit :=
  fun db =>
    (Ok tt,
     mkDB (jobs db) (applications db) (reviews db) (skills db)
          (next_skill_pk db)
          ({[ (user_pk self, skill_pk skill) ]} ∪ user_skills db)
          (job_required_skills db)).

Definition skill_title (skill_name : string) : string :=
  PyStr.title (PyStr.replace_char "_" " " skill_name).

(** The body of the last loop of [auto_detect_skills]. *)
Definition add_one (self : User) (skill_name : string) : M unit :=
  r <- get_or_create (skill_title skill_name)
                     "Auto-detected from user activity" ;;
  skills_add self (fst r).

(** The last loop of [auto_detect_skills], over the detected names in the
    order the set yields them. *)
Definition add_detected (self : User) (names : list string) : M unit :=
  for_each names (add_one self).

(** Python does not fix the order in which a set of strings is iterated
    (it changes with the hash seed of the process), so the order is a
    parameter: any function listing the elements of the set. *)
Definition enumerates (order : gset string -> list string) : Prop :=
  forall (s : gset string) (x : string), x ∈ order s <-> x ∈ s.

Definition auto_detect_skills (order : gset string -> list string) (self : User) : M unit :=
  detected <- query (detected_skills self) ;;
  add_detected self (order detected).

(** [self.skills.all()], as primary keys. *)
Definition skill_pks (self : User) (db : DB) : gset nat :=
  set_map snd (filter (fun p => fst p = user_pk self) (user_skills db)).

(** *** Recommendations *)

(** The names bound at module level in [accounts/models.py]: its three
    imports and its four classes. *)
Definition module_globals : list string :=
  [ "AbstractUser"; "models"; "RegexValidator";
    "User"; "Skill"; "UserProfile"; "VerificationRequest" ].

(** [queryset.filter(required_skills__in=self.skills.all()).distinct()] *)
Definition filter_required_skills (self : User) (rows : list Job) (db : DB) : list Job :=
  List.filter
    (fun j => existsb (fun s => bool_decide ((job_pk j, s) ∈ job_required_skills db))
                      (elements (skill_pks self db)))
    rows.

Definition get_recommended_jobs (self : User) (limit : nat) (today : Z) : M (list Job) :=
  let locals := [ "self"; "limit"; "Job"; "timezone"; "recommended_jobs" ] in
  recommended_jobs <- query (published_from today) ;;
  has_skills <- query (fun db => negb (bool_decide (skill_pks self db = ∅))) ;;
  recommended_jobs <-
    (if has_skills then query (filter_required_skills self recommended_jobs)
     else ret recommended_jobs) ;;
  recommended_jobs <-
    (if PyStr.truthy (location self) then
       let user_location_parts := PyStr.split "," (PyStr.lower (location self)) in
       _ <- lookup_name ("user_location_parts" :: locals) module_globals "Q" ;;
       ret (filter_location_Q (location_queries user_location_parts) recommended_jobs)
     else ret recommended_jobs) ;;
  ret (firstn limit (order_by urgent_then_newest recommended_jobs)).

(** *** Roles *)

Definition is_volunteer (self : User) : bool := String.eqb (role self) "volunteer".

Definition is_admin_user (self : User) : bool :=
  existsb (String.eqb (role self)) [ "admin" ] || is_superuser self.

Definition can_post_jobs (self : User) : bool :=
  existsb (String.eqb (role self)) [ "volunteer"; "admin"; "worker"; "poster"; "manager" ].

Definition can_apply_for_jobs (self : User) : bool :=
  existsb (String.eqb (role self)) [ "volunteer"; "admin"; "worker"; "poster"; "manager" ].

Definition can_manage_users (self : User) : bool := String.eqb (role self) "admin".

(** *** Review statistics *)

(** [range(a, b)] *)
Definition py_range (a b : Z) : list Z :=
  map (fun k => a + Z.of_nat k) (seq 0 (Z.to_nat (b - a))).

(** [JobReview.objects.filter(reviewer=self).count()] *)
Definition reviews_given_count (self : User) : M Z :=
  query (fun db =>
           Z.of_nat (length (List.filter
                               (fun r => Nat.eqb (review_reviewer_id r) (user_pk self))
                               (reviews db)))).

(** [JobReview.objects.filter(reviewee=self, rating=i).count()] *)
Definition rating_count (self : User) (i : Z) (db : DB) : Z :=
  Z.of_nat (length (List.filter (fun r => review_rating r =? i)
                                (received_reviews self db))).

(** The dictionary is a map from the star value to the count. *)
Definition rating_distribution (self : User) : M (gmap Z Z) :=
  fold_left
    (fun (acc : M (gmap Z Z)) i =>
       distribution <- acc ;;
       count <- query (rating_count self i) ;;
       ret (<[ i := count ]> distribution))
    (py_range 1 6) (ret ∅).



End Accounts.

(** ** jobs/views.py *)

Module JobsViews.

(** Module-level names of [jobs/views.py] that matter here: line 7 imports
    [Q], [Count] and [Avg] from [django.db.models]. *)
Definition module_globals : list string :=
  [ "render"; "get_object_or_404"; "redirect"; "login_required"; "messages";
    "reverse"; "Q"; "Count"; "Avg"; "JsonResponse"; "timezone"; "Paginator";
    "Job"; "JobApplication"; "JobCategory"; "SavedJob"; "JobReview" ].

(** The location search of [job_list] (the same loop as in
    [User.get_recommended_jobs]), applied to the query set [jobs]. *)
Definition job_list_location_filter (location : string) (jobs : list Job) : M (list Job) :=
  let locals := [ "request"; "AdvancedJobSearchForm"; "Q"; "search_form"; "jobs"; "data" ] in
  if PyStr.truthy location then
    let location_parts := PyStr.split "," (PyStr.lower location) in
    _ <- lookup_name ("location" :: "location_parts" :: locals) module_globals "Q" ;;
    ret (filter_location_Q (location_queries location_parts) jobs)
  else ret jobs.

(** The primary key given to a new [JobReview] row: one not in the table. *)
Definition fresh_review_pk (db : DB) : nat :=
  S (fold_right Nat.max 0%nat (map review_pk (reviews db))).

(** [review.save()] for a new review. *)
Definition review_save (job : Job) (reviewer reviewee : User) (rating : Z) : M unit :=
  fun db =>
    (Ok tt,
     mkDB (jobs db) (applications db)
          (reviews db ++ [ mkJobReview (fresh_review_pk db) (job_pk job)
                                       (user_pk reviewer) (user_pk reviewee) rating ])%list
          (skills db) (next_skill_pk db) (user_skills db) (job_required_skills db)).

(** What [leave_review] answers with. *)
Inductive Response : Type :=
| RedirectError (message : string)
| RedirectSuccess
| RenderForm.

(** [leave_review] once [job] and [reviewee] are found: [posted] is the
    rating of a POSTed form that validates, [None] for a GET request or a
    form with errors. *)
Definition leave_review (request_user : User) (posted : option Z) (job : Job) (reviewee : User) : M Response :=
  r <- Accounts.can_leave_review_for request_user reviewee job ;;
  let '(can_review, message) := r in
  if negb can_review then ret (RedirectError message)
  else
    match posted with
    | Some rating =>
        _ <- review_save job request_user reviewee rating ;;
        ret RedirectSuccess
    | None => ret RenderForm
    end.

End JobsViews.

(** ** core/views.py *)

Module CoreViews.





(** [home] for an authenticated user, as far as [featured_jobs] and the
    database go (the counts put in the context only read): the
    recommendations are built first, then skills are inferred for a user who
    has none. *)
Definition home_authenticated (order : gset string -> list string) (user : User) (today : Z) : M (list Job) :=
  featured_jobs <- Accounts.get_recommended_jobs user 8 today ;;
  has_skills <- query (fun db => negb (bool_decide (Accounts.skill_pks user db = ∅))) ;;
  _ <- (if negb has_skills then Accounts.auto_detect_skills order user else ret tt) ;;
  ret featured_jobs.

End CoreViews.

(** ** The review gate as the specification words it *)

Module GateSpec.
Import Accounts.

Inductive Check : Type := CoParticipation | Completion | Uniqueness.

Definition checks_in_order : list Check :=
  [ CoParticipation; Completion; Uniqueness ].

(** Whether a check passes for (actor, target, job). *)
Definition check_passes (actor target : User) (job : Job) (db : DB) (c : Check) : bool :=
  match c with
  | CoParticipation =>
      (is_poster actor job && accepted_application_exists job target db)
      || (is_poster target job && accepted_application_exists job actor db)
  | Completion => String.eqb (job_status job) "completed"
  | Uniqueness => negb (review_exists job actor target db)
  end.

Definition check_reason (c : Check) : string :=
  match c with
  | CoParticipation => msg_not_worked_together
  | Completion => msg_not_completed
  | Uniqueness => msg_already_reviewed
  end.

(** The first check, in order, that does not pass. *)
Definition first_failure (actor target : User) (job : Job) (db : DB) : option Check :=
  List.find (fun c => negb (check_passes actor target job db c)) checks_in_order.

Definition gate (actor target : User) (job : Job) (db : DB) : bool * string :=
  match first_failure actor target job db with
  | Some c => (false, check_reason c)
  | None => (true, msg_can_review)
  end.



End GateSpec.

(** ** Inputs of the score, as the specification names them *)

Module ScoreSpec.

(** All six checked profile fields are present. *)
Definition profile_complete (self : User) : Prop :=
  first_name self <> "" /\ last_name self <> "" /\ bio self <> ""
  /\ location self <> "" /\ phone_number self <> ""
  /\ profile_picture self <> "".

(** The ratings of the reviews the user received. *)
Definition received_ratings (self : User) (db : DB) : list Z :=
  map review_rating (Accounts.received_reviews self db).

End ScoreSpec.

(** ** What skill inference may change *)

Module SkillSpec.
Import Accounts.

(** [db'] has the rows of [db] and possibly more skills and more links
    between users and skills. *)
Definition extends (db db' : DB) : Prop :=
  jobs db' = jobs db
  /\ applications db' = applications db
  /\ reviews db' = reviews db
  /\ job_required_skills db' = job_required_skills db
  /\ (forall name s, skills db !! name = Some s -> skills db' !! name = Some s)
  /\ user_skills db ⊆ user_skills db'.

(** The skill named after [skill_name] exists and [self] has it. *)
Definition registered (self : User) (skill_name : string) (db : DB) : Prop :=
  exists s, skills db !! skill_title skill_name = Some s
            /\ (user_pk self, skill_pk s) ∈ user_skills db.

End SkillSpec.

(** ** Notions used to state further properties *)

Module More.
Import Accounts.

(** The texts skill inference reads for a user. *)
Definition texts_of (self : User) (db : DB) : list string :=
  (map (fun '(app, job) => app_text app job) (accepted_apps self db)
   ++ map job_text (posted_jobs self db))%list.

(** A keyword of the category occurs in the text. *)
Definition triggers (text skill_name : string) : Prop :=
  exists keywords, In (skill_name, keywords) skill_keywords
                   /\ exists keyword, In keyword keywords
                                      /\ PyStr.contains keyword text = true.

(** Every skill row is stored under its name with a primary key below the
    counter, and no two rows share a primary key. *)
Definition skills_wf (db : DB) : Prop :=
  (forall name s, skills db !! name = Some s ->
                  skill_name s = name /\ (skill_pk s < next_skill_pk db)%nat)
  /\ (forall n1 n2 s1 s2, skills db !! n1 = Some s1 -> skills db !! n2 = Some s2 ->
                          skill_pk s1 = skill_pk s2 -> n1 = n2).

(** No two reviews for the same (job, reviewer, reviewee). *)
Definition review_key (r : JobReview) : nat * nat * nat :=
  (review_job_id r, review_reviewer_id r, review_reviewee_id r).

Definition reviews_unique (db : DB) : Prop := NoDup (map review_key (reviews db)).

(** [a] does not sort after [b]. *)
Definition not_after (before : Job -> Job -> bool) (a b : Job) : Prop :=
  before b a = false.

(** [a] may be listed before [b]: an urgent job is never behind one that is
    not, and of two equally urgent jobs the older is not first. *)
Definition well_ranked (a b : Job) : Prop :=
  (job_is_urgent b = true -> job_is_urgent a = true)
  /\ (job_is_urgent a = job_is_urgent b -> job_created_at b <= job_created_at a).

(** The rank of a tier label, lowest first. *)
Definition tier_rank (label : string) : nat :=
  if String.eqb label "New" then 0
  else if String.eqb label "Fair" then 1
  else if String.eqb label "Good" then 2
  else if String.eqb label "Excellent" then 3
  else 4.


End More.

(** ** Scenarios *)

Module Scenario.

Definition blank_user (pk : nat) (name : string) : User :=
  mkUser pk name "" "" "" false true false "volunteer" "" "" false false
         false "" "" "" "" None true "" "".

(** Scenario A: ratings 5, 5, 4 received, verified, six profile fields
    filled in. *)
Definition user_A : User :=
  mkUser 1 "asha" "Asha" "Rao" "asha@example.org" false true false
         "volunteer" "+919800000001" "profile_pics/asha.png" true true true
         "manual_review" "" "Event photographer" "Mumbai, Maharashtra"
         None true "" "".

Definition db_A : DB :=
  mkDB [] []
       [ mkJobReview 1 11 2 1 5; mkJobReview 2 12 3 1 5; mkJobReview 3 13 4 1 4 ]
       ∅ 1 ∅ ∅.

(** Scenario C: skills Photography (pk 1) and Catering (pk 2), location
    "Mumbai, Maharashtra"; job 1 in Mumbai requires Photography, job 2 in
    Delhi requires nothing the user has. *)
Definition user_C : User := user_A.

Definition job_mumbai : Job :=
  mkJob 1 "Wedding shoot" "Candid pictures of the ceremony" 1 7 "Mumbai"
        120 "published" false 50.

Definition job_delhi : Job :=
  mkJob 2 "Stage crew" "Build the stage" 2 7 "Delhi" 121 "published" false 51.

Definition db_C : DB :=
  mkDB [ job_mumbai; job_delhi ] [] []
       (<[ "Photography" := mkSkill 1 "Photography" "" "" ]>
          (<[ "Catering" := mkSkill 2 "Catering" "" "" ]> ∅))
       3
       {[ (1%nat, 1%nat); (1%nat, 2%nat) ]}
       {[ (1%nat, 1%nat) ]}.

Definition today_C : Z := 100.

(** The same user without a location. *)
Definition user_C_nowhere : User :=
  mkUser 1 "asha" "Asha" "Rao" "asha@example.org" false true false
         "volunteer" "+919800000001" "profile_pics/asha.png" true true true
         "manual_review" "" "Event photographer" ""
         None true "" "".

(** Scenario D: the job of poster 7 is completed and volunteer 8 applied,
    but the application is still pending. *)
Definition poster_D : User := blank_user 7 "poster".
Definition volunteer_D : User := blank_user 8 "volunteer".

Definition job_D : Job :=
  mkJob 5 "Gala dinner" "Serve food at the gala" 3 7 "Pune" 90 "completed"
        false 40.

Definition db_D : DB :=
  mkDB [ job_D ] [ mkJobApplication 1 5 8 "pending" "" ] [] ∅ 1 ∅ ∅.

(** Scenario E: the application is accepted but the job is still in
    progress. *)
Definition job_E : Job :=
  mkJob 6 "Trade fair" "Front desk at the fair" 3 7 "Pune" 95 "in_progress"
        false 41.

Definition db_E : DB :=
  mkDB [ job_E ] [ mkJobApplication 2 6 8 "accepted" "" ] [] ∅ 1 ∅ ∅.

(** Scenario F: as E with the job completed, and a review by the poster
    already stored. *)
Definition job_F : Job :=
  mkJob 6 "Trade fair" "Front desk at the fair" 3 7 "Pune" 95 "completed"
        false 41.

Definition db_F : DB :=
  mkDB [ job_F ] [ mkJobApplication 2 6 8 "accepted" "I serve food" ]
       [ mkJobReview 1 6 7 8 5 ] ∅ 1 ∅ ∅.

(** Scenario G: as F before any review is written. *)
Definition db_G : DB :=
  mkDB [ job_F ] [ mkJobApplication 2 6 8 "accepted" "I serve food" ] [] ∅ 1 ∅ ∅.



End Scenario.

(** * Properties *)

(** ** Python strings and rounding on examples *)

Example lower_ex : PyStr.lower "Mumbai, Maharashtra" = "mumbai, maharashtra".
Proof. reflexivity. Qed.

Example title_ex :
  PyStr.title (PyStr.replace_char "_" " " "event_management") = "Event Management".
Proof. reflexivity. Qed.

Example split_strip_ex :
  map PyStr.strip (PyStr.split "," "mumbai, maharashtra ,")
  = ["mumbai"; "maharashtra"; ""].
Proof. reflexivity. Qed.

Example contains_ex :
  PyStr.contains "photo" "wedding photographer" = true
  /\ PyStr.contains "guard" "wedding photographer" = false.
Proof. split; reflexivity. Qed.

Example py_round_ex :
  py_round (5 # 2) = 2 /\ py_round (7 # 2) = 4 /\ py_round (248 # 3) = 83
  /\ py_round (-1 # 2) = 0.
Proof. repeat split. Qed.

(** ** The monad *)

Lemma bind_ok {A B} (m : M A) (k : A -> M B) db a db' :
  m db = (Ok a, db') -> bind m k db = k a db'.
Proof. intros H. unfold bind. now rewrite H. Qed.

Lemma bind_raise {A B} (m : M A) (k : A -> M B) db e db' :
  m db = (Raise e, db') -> bind m k db = (Raise e, db').
Proof. intros H. unfold bind. now rewrite H. Qed.

Lemma bind_query {A B} (f : DB -> A) (k : A -> M B) db :
  bind (query f) k db = k (f db) db.
Proof. reflexivity. Qed.

(** ** Reputation score *)

Section Reputation.
Import Accounts.

Lemma average_rating_returns self db :
  average_rating self db
  = (Ok (match received_reviews self db with
         | _ :: _ => py_round1 (Avg_rating (received_reviews self db))
         | [] => 0%Q
         end), db).
Proof.
  unfold average_rating. rewrite bind_query.
  destruct (received_reviews self db); reflexivity.
Qed.

Lemma total_reviews_count_returns self db :
  total_reviews_count self db
  = (Ok (Z.of_nat (length (received_reviews self db))), db).
Proof. reflexivity. Qed.

Lemma profile_completeness_returns self db :
  exists q, _calculate_profile_completeness self db = (Ok q, db).
Proof. eexists. reflexivity. Qed.

Lemma jobs_completed_missing self db :
  getattr self "jobs_completed" db
  = (Raise (AttributeError "User" "jobs_completed"), db).
Proof. reflexivity. Qed.

Lemma reputation_score_raises self db :
  reputation_score self db
  = (Raise (AttributeError "User" "jobs_completed"), db).
Proof.
  unfold reputation_score.
  rewrite (bind_ok _ _ _ _ _ (average_rating_returns self db)).
  rewrite (bind_ok _ _ _ _ _ (total_reviews_count_returns self db)).
  destruct (profile_completeness_returns self db) as [q Hq].
  rewrite (bind_ok _ _ _ _ _ Hq).
  apply bind_raise, jobs_completed_missing.
Qed.

End Reputation.

Section ReputationClaims.
Import Accounts ScoreSpec Scenario.

(** The last line of [reputation_score], [min(round(total), 100)], lies in
    [0, 100] for every non-negative total: were the activity component
    computable, the score would be in range. *)
Lemma capped_round_bounds (total : Q) :
  (0 <= total)%Q -> 0 <= Z.min (py_round total) 100 <= 100.
Proof.
  intros Hpos.
  assert (Hfloor : 0 <= Qfloor total).
  { change 0 with (Qfloor 0). now apply Qfloor_resp_le. }
  unfold py_round.
  destruct (total - inject_Z (Qfloor total) ?= 1 # 2)%Q;
    try destruct (Z.even (Qfloor total)); lia.
Qed.




(** C1, at the input of Scenario A: the score of a verified user with
    ratings 5, 5, 4 and a complete profile is not an integer in [0, 100];
    evaluating it raises [AttributeError] and leaves the database as it
    was. *)
Theorem reputation_score_scenario_A :
  reputation_score user_A db_A
  = (Raise (AttributeError "User" "jobs_completed"), db_A).
Proof. vm_compute. reflexivity. Qed.

(** C2: for every user and every database, evaluating the reputation
    score raises [AttributeError] for [jobs_completed], which is neither a
    column nor another member of [User]; the reputation level, which
    evaluates the score first, raises the same error. *)
Theorem reputation_score_never_computable (self : User) (db : DB) :
  reputation_score self db
  = (Raise (AttributeError "User" "jobs_completed"), db)
  /\ reputation_level self db
     = (Raise (AttributeError "User" "jobs_completed"), db)
  /\ User_column self "jobs_completed" = None
  /\ ~ In "jobs_completed" User_members.
Proof.
  split; [apply reputation_score_raises|].
  split.
  - unfold reputation_level. apply bind_raise, reputation_score_raises.
  - split; [reflexivity|].
    intros Hin. vm_compute in Hin.
    repeat (destruct Hin as [Hin | Hin]; [discriminate Hin|]).
    exact Hin.
Qed.

End ReputationClaims.

Section ScenarioA.
Import Accounts ScoreSpec Scenario.

Lemma sum_ratings_map (rs : list JobReview) :
  sum_ratings rs = fold_right Z.add 0 (map review_rating rs).
Proof. induction rs as [|r rs IH]; simpl; [reflexivity | now rewrite IH]. Qed.

Lemma sum_perm (xs ys : list Z) :
  xs ≡ₚ ys -> fold_right Z.add 0 xs = fold_right Z.add 0 ys.
Proof.
  induction 1 as [|x xs ys _ IH|x y xs|xs ys zs _ IH1 _ IH2]; simpl; lia.
Qed.

Lemma profile_complete_completeness self db :
  profile_complete self ->
  _calculate_profile_completeness self db = (Ok (6 # 6)%Q, db).
Proof.
  intros (H1 & H2 & H3 & H4 & H5 & H6).
  unfold _calculate_profile_completeness, fields_to_check; cbn.
  destruct (first_name self); [congruence|].
  destruct (last_name self); [congruence|].
  destruct (bio self); [congruence|].
  destruct (location self); [congruence|].
  destruct (phone_number self); [congruence|].
  destruct (profile_picture self); [congruence|].
  reflexivity.
Qed.

(** C8 as stated fails at Scenario A: the mean 14/3 is rounded to 4.7
    before it is scaled, so the rating component is 47, neither 46.67 nor
    the exactly scaled mean 140/3. *)
Lemma scenario_A_rating_component :
  received_ratings user_A db_A = [5; 5; 4]
  /\ average_rating user_A db_A = (Ok (47 # 10)%Q, db_A)
  /\ (rating_score (47 # 10) == 47)%Q
  /\ ~ (rating_score (47 # 10) == 4667 # 100)%Q
  /\ ~ (rating_score (47 # 10) == ((14 # 3) / 5) * 50)%Q.
Proof.
  split; [reflexivity|].
  split; [vm_compute; reflexivity|].
  repeat split; vm_compute; discriminate.
Qed.

(** C8, amended: for ratings 5, 5, 4, a verified user and a complete
    profile, the average is 4.7 and the rating component 47; the volume,
    verification and profile components are 6, 15 and 10; an activity
    component for 10 completed jobs is 5; these five sum and round to 83,
    under the cap, and 83 is in tier Excellent. *)
Theorem scenario_A_components (self : User) (db : DB) :
  received_ratings self db ≡ₚ [5; 5; 4] ->
  is_verified self = true ->
  profile_complete self ->
  exists avg completeness,
    average_rating self db = (Ok avg, db)
    /\ (avg == 47 # 10)%Q
    /\ (rating_score avg == 47)%Q
    /\ total_reviews_count self db = (Ok 3, db)
    /\ review_count_score 3 = 6
    /\ verification_score (is_verified self) = 15
    /\ _calculate_profile_completeness self db = (Ok completeness, db)
    /\ (profile_score completeness == 10)%Q
    /\ (activity_score 10 == 5)%Q
    /\ py_round (total_score (rating_score avg) 6 15
                             (profile_score completeness) (activity_score 10))
       = 83
    /\ Z.min 83 100 = 83
    /\ level (level_of_score 83) = "Excellent".
Proof.
  intros Hperm Hver Hprof.
  unfold received_ratings in Hperm.
  assert (Hsum : sum_ratings (received_reviews self db) = 14).
  { rewrite sum_ratings_map, (sum_perm _ _ Hperm). reflexivity. }
  assert (Hlen : length (received_reviews self db) = 3%nat).
  { rewrite <- (length_map review_rating), (Permutation_length Hperm).
    reflexivity. }
  exists (47 # 10)%Q, (6 # 6)%Q.
  split.
  { rewrite average_rating_returns.
    destruct (received_reviews self db) as [|r rs] eqn:Hrs; [discriminate|].
    unfold Avg_rating. rewrite Hsum, Hlen. vm_compute. reflexivity. }
  split; [reflexivity|].
  split; [vm_compute; reflexivity|].
  split; [rewrite total_reviews_count_returns, Hlen; reflexivity|].
  split; [reflexivity|].
  split; [rewrite Hver; reflexivity|].
  split; [now apply profile_complete_completeness|].
  repeat split; vm_compute; reflexivity.
Qed.

Lemma scenario_A_components_witness :
  exists avg completeness,
    average_rating user_A db_A = (Ok avg, db_A)
    /\ (avg == 47 # 10)%Q
    /\ (rating_score avg == 47)%Q
    /\ total_reviews_count user_A db_A = (Ok 3, db_A)
    /\ review_count_score 3 = 6
    /\ verification_score (is_verified user_A) = 15
    /\ _calculate_profile_completeness user_A db_A = (Ok completeness, db_A)
    /\ (profile_score completeness == 10)%Q
    /\ (activity_score 10 == 5)%Q
    /\ py_round (total_score (rating_score avg) 6 15
                             (profile_score completeness) (activity_score 10))
       = 83
    /\ Z.min 83 100 = 83
    /\ level (level_of_score 83) = "Excellent".
Proof.
  apply (scenario_A_components user_A db_A).
  - reflexivity.
  - reflexivity.
  - unfold profile_complete; simpl; repeat split; discriminate.
Defined.

End ScenarioA.

(** ** Review eligibility *)

Section Gate.
Import Accounts GateSpec Scenario.

Lemma accepted_application_exists_pk job (u1 u2 : User) db :
  user_pk u1 = user_pk u2 ->
  accepted_application_exists job u1 db = accepted_application_exists job u2 db.
Proof. intros H. unfold accepted_application_exists. now rewrite H. Qed.



(** The value of [worked_together]. *)
Lemma worked_together_value (self user : User) job db :
  (if is_poster self job then query (accepted_application_exists job user)
   else if is_poster user job then query (accepted_application_exists job self)
   else ret false) db
  = (Ok (check_passes self user job db CoParticipation), db).
Proof.
  simpl. destruct (is_poster self job) eqn:Hs, (is_poster user job) eqn:Hu;
    unfold query, ret; simpl.
  - rewrite (accepted_application_exists_pk job self user db).
    + now rewrite orb_diag.
    + apply Nat.eqb_eq in Hs, Hu. congruence.
  - now rewrite orb_false_r.
  - reflexivity.
  - reflexivity.
Qed.

Lemma can_leave_review_for_run (self user : User) job db :
  can_leave_review_for self user job db = (Ok (gate self user job db), db).
Proof.
  unfold can_leave_review_for.
  rewrite (bind_ok _ _ _ _ _ (worked_together_value self user job db)).
  unfold gate, first_failure, checks_in_order.
  cbn [List.find].
  destruct (check_passes self user job db CoParticipation); cbn [negb];
    [|reflexivity].
  cbn [check_passes].
  destruct (String.eqb (job_status job) "completed"); cbn [negb];
    [|reflexivity].
  rewrite bind_query.
  destruct (review_exists job self user db); reflexivity.
Qed.

Lemma check_reason_inj c1 c2 : check_reason c1 = check_reason c2 -> c1 = c2.
Proof. destruct c1, c2; intros H; try reflexivity; discriminate H. Qed.




Example scenario_D_denied :
  can_leave_review_for poster_D volunteer_D job_D db_D
  = (Ok (false, "You haven't worked together on this job"), db_D)
  /\ can_leave_review_for volunteer_D poster_D job_D db_D
     = (Ok (false, "You haven't worked together on this job"), db_D).
Proof. split; reflexivity. Qed.

(** C10 as stated fails: a denial is the pair (False, message) and nothing
    else.  In Scenarios D, E and F three different checks fail and the
    results differ in the message only, so no reason code can be read off
    the rest of the result. *)
Lemma denial_has_no_reason_code :
  can_leave_review_for poster_D volunteer_D job_D db_D
  = (Ok (false, msg_not_worked_together), db_D)
  /\ can_leave_review_for poster_D volunteer_D job_E db_E
     = (Ok (false, msg_not_completed), db_E)
  /\ can_leave_review_for poster_D volunteer_D job_F db_F
     = (Ok (false, msg_already_reviewed), db_F)
  /\ ~ (exists code_of : bool -> Check,
          forall actor target job db allowed msg c,
            can_leave_review_for actor target job db = (Ok (allowed, msg), db) ->
            first_failure actor target job db = Some c ->
            code_of allowed = c).
Proof.
  repeat split; try reflexivity.
  intros [code_of H].
  assert (HD : code_of false = CoParticipation).
  { apply (H poster_D volunteer_D job_D db_D false msg_not_worked_together);
      reflexivity. }
  assert (HE : code_of false = Completion).
  { apply (H poster_D volunteer_D job_E db_E false msg_not_completed);
      reflexivity. }
  congruence.
Qed.

(** C10, amended: the three rejections are told apart by their message
    alone: a check is the first to fail exactly when the gate returns
    False with the message of that check, and the three messages are
    pairwise different. *)
Theorem denial_message_identifies_check (actor target : User) (job : Job) (db : DB) (c : Check) :
  (first_failure actor target job db = Some c
   <-> can_leave_review_for actor target job db = (Ok (false, check_reason c), db))
  /\ (forall c', check_reason c = check_reason c' -> c = c').
Proof.
  split; [|apply check_reason_inj].
  rewrite can_leave_review_for_run. unfold gate.
  destruct (first_failure actor target job db) as [c0|].
  - split.
    + intros [= ->]. reflexivity.
    + intros [= H]. apply check_reason_inj in H. now subst.
  - split; discriminate.
Qed.

Lemma denial_message_identifies_check_witness :
  can_leave_review_for poster_D volunteer_D job_E db_E
  = (Ok (false, check_reason Completion), db_E).
Proof.
  apply (proj1 (denial_message_identifies_check
                  poster_D volunteer_D job_E db_E Completion)).
  reflexivity.
Defined.

End Gate.

(** ** Skill inference *)

Section SkillInference.
Import Accounts SkillSpec Scenario.

Variable self : User.

Local Abbreviation registered := (SkillSpec.registered self).
Local Abbreviation add_one := (Accounts.add_one self).

Lemma extends_refl db : extends db db.
Proof. unfold extends. repeat split; auto. Qed.

Lemma extends_trans db1 db2 db3 :
  extends db1 db2 -> extends db2 db3 -> extends db1 db3.
Proof.
  intros (Hj & Ha & Hr & Hq & Hs & Hu) (Hj' & Ha' & Hr' & Hq' & Hs' & Hu').
  unfold extends. repeat split; try congruence; auto.
  now transitivity (user_skills db2).
Qed.

Lemma registered_extends n db db' :
  extends db db' -> registered n db -> registered n db'.
Proof.
  intros (_ & _ & _ & _ & Hs & Hu) (s & Hget & Hin).
  exists s. split; [auto | set_solver].
Qed.

Lemma add_one_extends n db :
  exists db', add_one n db = (Ok tt, db')
              /\ extends db db' /\ registered n db'.
Proof.
  unfold add_one, bind, get_or_create, skills_add.
  destruct (skills db !! skill_title n) as [s|] eqn:Hget; simpl.
  - eexists. split; [reflexivity|]. split.
    + unfold extends; simpl. repeat split; auto. set_solver.
    + exists s; simpl. split; [assumption | set_solver].
  - eexists. split; [reflexivity|]. split.
    + unfold extends; simpl. repeat split; auto; [|set_solver].
      intros name s Hs. rewrite lookup_insert_ne; [assumption|congruence].
    + eexists; simpl. split; [apply lookup_insert_eq | set_solver].
Qed.

Lemma add_one_noop n db :
  registered n db -> add_one n db = (Ok tt, db).
Proof.
  intros (s & Hget & Hin).
  unfold add_one, bind, get_or_create, skills_add. rewrite Hget; simpl.
  destruct db as [js apps rs sk nx us rq]; simpl in *.
  f_equal. f_equal.
  now apply subseteq_union_1_L, singleton_subseteq_l.
Qed.

Lemma add_detected_extends names db :
  exists db', add_detected self names db = (Ok tt, db')
              /\ extends db db'
              /\ Forall (fun n => registered n db') names.
Proof.
  revert db. induction names as [|n names IH]; intros db.
  - exists db. split; [reflexivity|]. split; [apply extends_refl | constructor].
  - destruct (add_one_extends n db) as (db1 & Hrun & Hext & Hreg).
    destruct (IH db1) as (db2 & Hrun2 & Hext2 & Hall).
    exists db2. split.
    + unfold add_detected; simpl.
      change (bind (add_one n) (fun _ => add_detected self names) db = (Ok tt, db2)).
      now rewrite (bind_ok _ _ _ _ _ Hrun).
    + split; [eapply extends_trans; eassumption|].
      constructor; [eapply registered_extends; eassumption | assumption].
Qed.

Lemma add_detected_noop names db :
  Forall (fun n => registered n db) names ->
  add_detected self names db = (Ok tt, db).
Proof.
  induction 1 as [|n names Hn _ IH]; [reflexivity|].
  unfold add_detected; simpl.
  change (bind (add_one n) (fun _ => add_detected self names) db = (Ok tt, db)).
  now rewrite (bind_ok _ _ _ _ _ (add_one_noop n db Hn)).
Qed.

Lemma detected_skills_same db db' :
  jobs db' = jobs db -> applications db' = applications db ->
  detected_skills self db' = detected_skills self db.
Proof.
  intros Hj Ha. unfold detected_skills, accepted_apps, posted_jobs.
  now rewrite Hj, Ha.
Qed.

Lemma skill_pks_mono (u : User) db db' :
  user_skills db ⊆ user_skills db' -> skill_pks u db ⊆ skill_pks u db'.
Proof.
  intros Hsub pk. unfold skill_pks.
  rewrite !elem_of_map. intros (p & Hp & Hin).
  exists p. split; [assumption|].
  apply elem_of_filter in Hin as [Hu Hin].
  apply elem_of_filter. split; [assumption | now apply Hsub].
Qed.

End SkillInference.

Section SkillInferenceClaims.
Import Accounts SkillSpec Scenario.

Lemma enumerates_elements : enumerates elements.
Proof. intros s x. apply elem_of_elements. Qed.

(** C5: skill inference returns without raising, removes no skill of any
    user (the skill set afterwards contains the one before, and every
    skill row is kept), changes neither jobs nor applications, and a second
    run on the resulting database changes nothing at all - whatever
    order the two runs iterate the detected set in. *)
Theorem auto_detect_skills_monotone_idempotent
    (order1 order2 : gset string -> list string) (self : User) (db : DB) :
  enumerates order1 -> enumerates order2 ->
  exists db1,
    auto_detect_skills order1 self db = (Ok tt, db1)
    /\ (forall u, skill_pks u db ⊆ skill_pks u db1)
    /\ (forall name s, skills db !! name = Some s -> skills db1 !! name = Some s)
    /\ jobs db1 = jobs db /\ applications db1 = applications db
    /\ auto_detect_skills order2 self db1 = (Ok tt, db1).
Proof.
  intros Ho1 Ho2.
  destruct (add_detected_extends self (order1 (detected_skills self db)) db)
    as (db1 & Hrun & Hext & Hreg).
  exists db1.
  pose proof Hext as (Hj & Ha & _ & _ & Hs & Hu).
  split; [unfold auto_detect_skills; now rewrite bind_query|].
  split; [intros u; now apply skill_pks_mono|].
  split; [assumption|].
  split; [assumption|].
  split; [assumption|].
  unfold auto_detect_skills. rewrite bind_query.
  rewrite (detected_skills_same self db db1 Hj Ha).
  apply add_detected_noop.
  rewrite Forall_forall in Hreg |- *.
  intros n Hn. apply Hreg.
  apply Ho1. apply Ho2 in Hn. exact Hn.
Qed.

(** The volunteer of Scenario F: the accepted application mentions a front
    desk and serving food. *)
Lemma auto_detect_skills_monotone_idempotent_witness :
  exists db1,
    auto_detect_skills elements volunteer_D db_F = (Ok tt, db1)
    /\ (forall u, skill_pks u db_F ⊆ skill_pks u db1)
    /\ (forall name s, skills db_F !! name = Some s -> skills db1 !! name = Some s)
    /\ jobs db1 = jobs db_F /\ applications db1 = applications db_F
    /\ auto_detect_skills elements volunteer_D db1 = (Ok tt, db1).
Proof.
  apply (auto_detect_skills_monotone_idempotent elements elements volunteer_D db_F).
  - exact enumerates_elements.
  - exact enumerates_elements.
Defined.

Example scenario_F_detected :
  elements (detected_skills volunteer_D db_F) = ["customer_service"; "catering"]
  /\ elements (skill_pks volunteer_D (snd (auto_detect_skills elements volunteer_D db_F)))
     = [2; 1]%nat.
Proof. split; vm_compute; reflexivity. Qed.

End SkillInferenceClaims.

(** ** Recommendations *)

Section Recommendations.
Import Accounts Scenario.

(** What the location filter keeps, where [Q] is bound (as it is in
    [jobs/views.py]): every row when no part is left after trimming,
    otherwise the rows whose location contains one of the parts. *)
Lemma filter_location_Q_spec (q : Qobj) (rows : list Job) (j : Job) :
  In j (filter_location_Q q rows)
  <-> In j rows
      /\ (q = [] \/ exists part, In part q /\ icontains part (job_location j) = true).
Proof.
  destruct q as [|p q]; simpl.
  - split; [intros H; split; [assumption | now left] | now intros [H _]].
  - rewrite filter_In. split.
    + intros [Hin Hex]. split; [assumption|]. right.
      change (existsb (fun needle => icontains needle (job_location j)) (p :: q) = true)
        in Hex.
      apply existsb_exists in Hex as (part & Hp & Hc). now exists part.
    + intros [Hin [Hnil | (part & Hp & Hc)]]; [discriminate|].
      split; [assumption|].
      change (existsb (fun needle => icontains needle (job_location j)) (p :: q) = true).
      apply existsb_exists. now exists part.
Qed.

(** The search of [job_list] on the two jobs of Scenario C keeps the
    Mumbai job only. *)
Example job_list_location_filter_scenario_C :
  JobsViews.job_list_location_filter "Mumbai, Maharashtra"
                                     [job_mumbai; job_delhi] db_C
  = (Ok [job_mumbai], db_C).
Proof. vm_compute. reflexivity. Qed.

Lemma Q_unbound locals db :
  Forall (fun n => n <> "Q") locals ->
  lookup_name locals module_globals "Q" db = (Raise (NameError "Q"), db).
Proof.
  intros Hl. unfold lookup_name.
  replace (existsb (String.eqb "Q") (locals ++ module_globals ++ builtins)%list)
    with false; [reflexivity|].
  symmetry. rewrite existsb_app. apply orb_false_intro; [|reflexivity].
  induction Hl as [|n locals Hn _ IH]; [reflexivity|]. cbn [existsb].
  rewrite IH, orb_false_r. apply String.eqb_neq. congruence.
Qed.

(** C6, at the input of Scenario C: the recommender does not return the
    Mumbai job for the user located in "Mumbai, Maharashtra"; the location
    branch raises [NameError] before any part is matched. *)
Theorem get_recommended_jobs_scenario_C :
  get_recommended_jobs user_C 6 today_C db_C = (Raise (NameError "Q"), db_C).
Proof. vm_compute. reflexivity. Qed.

(** C7: with a non-empty location [get_recommended_jobs] raises
    [NameError] for [Q], which neither the function nor the module binds;
    with an empty location it returns a list of jobs. *)
Theorem get_recommended_jobs_location_raises
    (self : User) (limit : nat) (today : Z) (db : DB) :
  (location self <> "" ->
   get_recommended_jobs self limit today db = (Raise (NameError "Q"), db))
  /\ (location self = "" ->
      exists jobs, get_recommended_jobs self limit today db = (Ok jobs, db)).
Proof.
  unfold get_recommended_jobs. rewrite !bind_query.
  set (has_skills := negb (bool_decide (skill_pks self db = ∅))).
  set (base := published_from today db).
  assert (Hskills : exists rows,
             (if has_skills then query (filter_required_skills self base)
              else ret base) db = (Ok rows, db)).
  { destruct has_skills; eexists; reflexivity. }
  destruct Hskills as [rows Hrows].
  rewrite (bind_ok _ _ _ _ _ Hrows).
  split.
  - intros Hloc. destruct (location self) as [|c l] eqn:Hl; [congruence|].
    cbn [PyStr.truthy].
    apply bind_raise, bind_raise, Q_unbound.
    repeat constructor; discriminate.
  - intros Hloc. rewrite Hloc. cbn [PyStr.truthy].
    eexists. reflexivity.
Qed.

Lemma get_recommended_jobs_location_raises_witness :
  get_recommended_jobs user_C 6 today_C db_C = (Raise (NameError "Q"), db_C)
  /\ exists jobs,
       get_recommended_jobs user_C_nowhere 6 today_C db_C = (Ok jobs, db_C).
Proof.
  split.
  - apply (proj1 (get_recommended_jobs_location_raises user_C 6 today_C db_C)).
    discriminate.
  - apply (proj2 (get_recommended_jobs_location_raises user_C_nowhere 6 today_C db_C)).
    reflexivity.
Defined.

Example get_recommended_jobs_nowhere :
  get_recommended_jobs user_C_nowhere 6 today_C db_C = (Ok [job_mumbai], db_C).
Proof. vm_compute. reflexivity. Qed.

End Recommendations.

(** ** Home page *)

Section Home.
Import CoreViews Scenario.

Lemma In_firstn {A} (n : nat) (l : list A) (x : A) :
  In x (firstn n l) -> In x l.
Proof.
  revert l. induction n as [|n IH]; intros [|y l]; simpl; try tauto.
  intros [H | H]; [now left | right; now apply IH].
Qed.

Lemma In_insert_row before (j x : Job) (l : list Job) :
  In x (insert_row before j l) <-> x = j \/ In x l.
Proof.
  induction l as [|y l IH]; simpl.
  - split; [intros [H | []]; now left | intros [H | []]; now left].
  - destruct (before y j); simpl; [rewrite IH|]; intuition congruence.
Qed.

Lemma In_order_by before (x : Job) (l : list Job) :
  In x (order_by before l) <-> In x l.
Proof.
  induction l as [|y l IH]; simpl; [reflexivity|].
  rewrite In_insert_row, IH. intuition congruence.
Qed.

Lemma In_published_from today db (j : Job) :
  In j (published_from today db)
  <-> In j (jobs db) /\ job_status j = "published" /\ today <= job_event_date j.
Proof.
  unfold published_from. rewrite filter_In, andb_true_iff, String.eqb_eq, Z.leb_le.
  reflexivity.
Qed.







End Home.

(** * Further properties *)

(** ** Rounding *)

Section Rounding.



End Rounding.

(** ** Review statistics *)

Section Statistics.
Import Accounts ScoreSpec More Scenario.







End Statistics.

Section MoreStatistics.
Import Accounts ScoreSpec More Scenario.

Lemma rating_counts_sum (l : list JobReview) :
  fold_right Z.add 0
    (map (fun i => Z.of_nat (length (List.filter (fun r => review_rating r =? i) l)))
         [1; 2; 3; 4; 5])
  = Z.of_nat (length (List.filter
                        (fun r => (1 <=? review_rating r) && (review_rating r <=? 5)) l)).
Proof.
  induction l as [|r l IH]; [reflexivity|].
  cbn [map fold_right List.filter] in *.
  destruct (Z.eqb_spec (review_rating r) 1), (Z.eqb_spec (review_rating r) 2),
    (Z.eqb_spec (review_rating r) 3), (Z.eqb_spec (review_rating r) 4),
    (Z.eqb_spec (review_rating r) 5),
    (Z.leb_spec 1 (review_rating r)), (Z.leb_spec (review_rating r) 5);
    cbn [andb length] in *; lia.
Qed.

(** X3: The rating distribution has exactly the keys 1 to 5, each with the
    number of received reviews of that rating, also when that number is 0;
    the five counts add up to the number of received reviews rated within
    1 to 5. *)
Theorem rating_distribution_keys (self : User) (db : DB) :
  exists distribution,
    rating_distribution self db = (Ok distribution, db)
    /\ (forall i : Z,
          distribution !! i
          = if (1 <=? i) && (i <=? 5) then Some (rating_count self i db) else None)
    /\ fold_right Z.add 0 (map (fun i => rating_count self i db) (py_range 1 6))
       = Z.of_nat (length (List.filter
                             (fun r => (1 <=? review_rating r) && (review_rating r <=? 5))
                             (received_reviews self db))).
Proof.
  eexists. split; [reflexivity|]. split.
  - intros i. rewrite !lookup_insert.
    repeat case_decide; subst; try reflexivity.
    rewrite lookup_empty.
    destruct (Z.leb_spec 1 i), (Z.leb_spec i 5); try reflexivity. lia.
  - apply (rating_counts_sum (received_reviews self db)).
Qed.

(** X4: profile completeness never raises; it is a fraction between 0 and 1,
    and it is 1 exactly when all six checked fields are filled in. *)
Theorem profile_completeness_range (self : User) (db : DB) :
  exists c,
    _calculate_profile_completeness self db = (Ok c, db)
    /\ (0 <= c)%Q /\ (c <= 1)%Q
    /\ ((c == 1)%Q <-> profile_complete self).
Proof.
  unfold _calculate_profile_completeness, fields_to_check, profile_complete; cbn.
  destruct (first_name self), (last_name self), (bio self), (location self),
    (phone_number self), (profile_picture self);
    (eexists; split; [reflexivity|];
     split; [vm_compute; discriminate|];
     split; [vm_compute; discriminate|];
     split;
     [ intros Hc; try (vm_compute in Hc; discriminate Hc); repeat split; discriminate
     | intros (H1 & H2 & H3 & H4 & H5 & H6); try congruence; reflexivity ]).
Qed.




(** X6: a higher score never gives a lower tier; the top tier starts at 90 and
    the bottom tier ends below 40. *)
Theorem level_of_score_monotone (s1 s2 : Z) :
  s1 <= s2 ->
  (tier_rank (level (level_of_score s1)) <= tier_rank (level (level_of_score s2)))%nat
  /\ (level (level_of_score s1) = "Elite" <-> 90 <= s1)
  /\ (level (level_of_score s1) = "New" <-> s1 < 40).
Proof.
  intros Hle. unfold level_of_score.
  destruct (Z.leb_spec 90 s1), (Z.leb_spec 75 s1), (Z.leb_spec 60 s1),
    (Z.leb_spec 40 s1), (Z.leb_spec 90 s2), (Z.leb_spec 75 s2),
    (Z.leb_spec 60 s2), (Z.leb_spec 40 s2);
    try lia; cbn;
    (split; [lia|]; split; split; intros Hx; (lia || discriminate Hx || reflexivity)).
Qed.

Lemma level_of_score_monotone_witness :
  (tier_rank (level (level_of_score 59)) <= tier_rank (level (level_of_score 83)))%nat
  /\ (level (level_of_score 59) = "Elite" <-> 90 <= 59)
  /\ (level (level_of_score 59) = "New" <-> 59 < 40).
Proof. apply (level_of_score_monotone 59 83). lia. Defined.

(** X7: Posting and applying are open to the same roles; a volunteer may do
    both but may not manage users; whoever may manage users is an admin
    user and may post and apply. *)
Theorem role_permissions (self : User) :
  can_post_jobs self = can_apply_for_jobs self
  /\ (is_volunteer self = true ->
      can_post_jobs self = true /\ can_manage_users self = false)
  /\ (can_manage_users self = true ->
      is_admin_user self = true /\ can_post_jobs self = true
      /\ is_volunteer self = false).
Proof.
  unfold can_post_jobs, can_apply_for_jobs, is_volunteer, can_manage_users,
    is_admin_user.
  split; [reflexivity|]. split.
  - intros H. apply String.eqb_eq in H. rewrite H. split; reflexivity.
  - intros H. apply String.eqb_eq in H. rewrite H. repeat split; reflexivity.
Qed.

Lemma role_permissions_witness :
  can_post_jobs user_A = true /\ can_manage_users user_A = false.
Proof.
  apply (proj1 (proj2 (role_permissions user_A))). reflexivity.
Defined.

End MoreStatistics.

(** ** Reviews through the gate *)

Section ReviewFlow.
Import Accounts GateSpec More Scenario JobsViews.

Lemma co_participation_sym (a t : User) job db :
  check_passes a t job db CoParticipation = check_passes t a job db CoParticipation.
Proof. simpl. apply orb_comm. Qed.

(** What an allowing answer of the gate tells. *)
Lemma gate_allowed (a t : User) job db b m db' :
  can_leave_review_for a t job db = (Ok (b, m), db') ->
  b = true ->
  check_passes a t job db CoParticipation = true
  /\ String.eqb (job_status job) "completed" = true
  /\ review_exists job a t db = false
  /\ m = msg_can_review /\ db' = db.
Proof.
  rewrite can_leave_review_for_run. unfold gate, first_failure, checks_in_order.
  cbn [List.find check_passes].
  destruct (orb _ _); cbn [negb]; [|intros [= <- _ _] [=]].
  destruct (String.eqb (job_status job) "completed"); cbn [negb];
    [|intros [= <- _ _] [=]].
  destruct (review_exists job a t db); cbn [negb]; [intros [= <- _ _] [=]|].
  intros [= _ <- <-] _. repeat split; reflexivity.
Qed.

Lemma gate_allows (a t : User) job db :
  check_passes a t job db CoParticipation = true ->
  String.eqb (job_status job) "completed" = true ->
  review_exists job a t db = false ->
  can_leave_review_for a t job db = (Ok (true, msg_can_review), db).
Proof.
  intros H1 H2 H3. rewrite can_leave_review_for_run.
  unfold gate, first_failure, checks_in_order. cbn [List.find].
  rewrite H1. cbn [negb check_passes]. rewrite H2, H3. reflexivity.
Qed.

(** X8: when one party may review the other on a job, the other may review
    the first as well, unless that review is already written. *)
Theorem review_permission_symmetric (actor target : User) (job : Job) (db : DB) :
  can_leave_review_for actor target job db = (Ok (true, msg_can_review), db) ->
  review_exists job target actor db = false ->
  can_leave_review_for target actor job db = (Ok (true, msg_can_review), db).
Proof.
  intros Hrun Hnone.
  destruct (gate_allowed _ _ _ _ _ _ _ Hrun eq_refl) as (Hco & Hst & _).
  apply gate_allows; [now rewrite co_participation_sym | assumption | assumption].
Qed.

Lemma review_permission_symmetric_witness :
  can_leave_review_for volunteer_D poster_D job_F db_G
  = (Ok (true, msg_can_review), db_G).
Proof.
  apply (review_permission_symmetric poster_D volunteer_D job_F db_G);
    reflexivity.
Defined.

Lemma review_exists_key job (a t : User) db :
  review_exists job a t db = true
  <-> In (job_pk job, user_pk a, user_pk t) (map review_key (reviews db)).
Proof.
  unfold review_exists. rewrite existsb_exists, in_map_iff. unfold review_key.
  split.
  - intros (r & Hin & Hr).
    apply andb_prop in Hr as [Hr H3]. apply andb_prop in Hr as [H1 H2].
    apply Nat.eqb_eq in H1, H2, H3. exists r. split; [congruence | assumption].
  - intros (r & [= H1 H2 H3] & Hin). exists r. split; [assumption|].
    now rewrite H1, H2, H3, !Nat.eqb_refl.
Qed.

Lemma review_save_exists job (a t : User) rating db :
  review_exists job a t (snd (review_save job a t rating db)) = true.
Proof.
  unfold review_exists, review_save; simpl.
  rewrite existsb_app; simpl. rewrite !Nat.eqb_refl. apply orb_true_r.
Qed.

(** X9: after a review went through [leave_review], the gate denies the same
    reviewer, reviewee and job with "already reviewed", and a second
    submission is turned away without writing anything. *)
Theorem leave_review_only_once (user reviewee : User) (job : Job) (rating : Z) (db db1 : DB) :
  leave_review user (Some rating) job reviewee db = (Ok RedirectSuccess, db1) ->
  can_leave_review_for user reviewee job db1 = (Ok (false, msg_already_reviewed), db1)
  /\ (forall posted,
        leave_review user posted job reviewee db1
        = (Ok (RedirectError msg_already_reviewed), db1))
  /\ length (reviews db1) = S (length (reviews db)).
Proof.
  unfold leave_review at 1.
  rewrite (bind_ok _ _ _ _ _ (can_leave_review_for_run user reviewee job db)).
  destruct (gate user reviewee job db) as [b m] eqn:Hg.
  destruct b; cbn [negb]; [|intros [=]].
  pose proof (can_leave_review_for_run user reviewee job db) as Hrun.
  rewrite Hg in Hrun.
  destruct (gate_allowed _ _ _ _ _ _ _ Hrun eq_refl) as (Hco & Hst & Hno & _ & _).
  unfold bind. cbn. intros [= <-].
  assert (Hdenied :
    can_leave_review_for user reviewee job
      (snd (review_save job user reviewee rating db))
    = (Ok (false, msg_already_reviewed), snd (review_save job user reviewee rating db))).
  { rewrite can_leave_review_for_run.
    unfold gate, first_failure, checks_in_order. cbn [List.find].
    replace (check_passes user reviewee job
               (snd (review_save job user reviewee rating db)) CoParticipation)
      with true by (rewrite <- Hco; reflexivity).
    cbn [negb check_passes]. rewrite Hst, review_save_exists. reflexivity. }
  split; [exact Hdenied|]. split.
  - intros posted. unfold leave_review.
    rewrite (bind_ok _ _ _ _ _ Hdenied). reflexivity.
  - cbn. rewrite length_app. simpl. lia.
Qed.

Lemma leave_review_only_once_witness :
  exists db1,
    leave_review poster_D (Some 5) job_F volunteer_D db_G = (Ok RedirectSuccess, db1)
    /\ can_leave_review_for poster_D volunteer_D job_F db1
       = (Ok (false, msg_already_reviewed), db1).
Proof.
  eexists. split; [reflexivity|].
  apply (leave_review_only_once poster_D volunteer_D job_F 5 db_G). reflexivity.
Defined.

(** X10: [leave_review] never raises, writes at most one row and only when it
    answers with the success redirect, and keeps the reviews free of two
    rows for the same job, reviewer and reviewee. *)
Theorem leave_review_keeps_reviews_unique
    (user reviewee : User) (job : Job) (posted : option Z) (db : DB) :
  reviews_unique db ->
  exists response db1,
    leave_review user posted job reviewee db = (Ok response, db1)
    /\ reviews_unique db1
    /\ (response <> RedirectSuccess -> db1 = db).
Proof.
  intros Huniq. unfold leave_review.
  rewrite (bind_ok _ _ _ _ _ (can_leave_review_for_run user reviewee job db)).
  destruct (gate user reviewee job db) as [b m] eqn:Hg.
  destruct b; cbn [negb].
  - pose proof (can_leave_review_for_run user reviewee job db) as Hrun.
    rewrite Hg in Hrun.
    destruct (gate_allowed _ _ _ _ _ _ _ Hrun eq_refl) as (_ & _ & Hno & _ & _).
    destruct posted as [rating|].
    + eexists _, _. split; [reflexivity|]. split; [|congruence].
      unfold reviews_unique in *; cbn. rewrite map_app; cbn.
      apply NoDup_app. repeat split.
      * assumption.
      * intros k Hk Hk'. apply list_elem_of_singleton in Hk'. subst k.
        apply list_elem_of_In, review_exists_key in Hk. congruence.
      * apply NoDup_singleton.
    + eexists _, _. split; [reflexivity|]. split; [assumption | reflexivity].
  - eexists _, _. split; [reflexivity|]. split; [assumption | reflexivity].
Qed.

Lemma leave_review_keeps_reviews_unique_witness :
  exists response db1,
    leave_review poster_D (Some 4) job_F volunteer_D db_F = (Ok response, db1)
    /\ reviews_unique db1
    /\ (response <> RedirectSuccess -> db1 = db_F).
Proof.
  apply (leave_review_keeps_reviews_unique poster_D volunteer_D job_F (Some 4) db_F).
  unfold reviews_unique; cbn. apply NoDup_singleton.
Defined.

End ReviewFlow.

(** ** Recommendations without a location *)

Section Ranking.
Import Accounts More Scenario.

Variable before : Job -> Job -> bool.
Hypothesis before_asym : forall a b, before a b = true -> before b a = false.
Hypothesis not_after_trans :
  forall a b c, not_after before a b -> not_after before b c -> not_after before a c.

Lemma insert_row_sorted (j : Job) (l : list Job) :
  StronglySorted (not_after before) l ->
  StronglySorted (not_after before) (insert_row before j l).
Proof.
  induction 1 as [|x l Hs IH Hx]; simpl.
  - repeat constructor.
  - destruct (before x j) eqn:Hb.
    + constructor; [assumption|].
      apply Forall_forall. intros y Hy.
      apply list_elem_of_In, In_insert_row in Hy as [-> | Hy].
      * apply before_asym, Hb.
      * rewrite Forall_forall in Hx. now apply Hx, list_elem_of_In.
    + constructor; [now constructor|].
      constructor; [exact Hb|].
      rewrite Forall_forall in Hx |- *. intros y Hy.
      apply (not_after_trans j x y); [exact Hb | now apply Hx].
Qed.

Lemma order_by_sorted (l : list Job) :
  StronglySorted (not_after before) (order_by before l).
Proof.
  induction l as [|j l IH]; simpl; [constructor | now apply insert_row_sorted].
Qed.

End Ranking.

Section RecommendationsWithoutLocation.
Import Accounts More Scenario.

Lemma urgent_then_newest_asym a b :
  urgent_then_newest a b = true -> urgent_then_newest b a = false.
Proof.
  unfold urgent_then_newest.
  destruct (job_is_urgent a), (job_is_urgent b); simpl; try congruence;
    intros H; apply Z.ltb_lt in H; apply Z.ltb_ge; lia.
Qed.

Lemma urgent_then_newest_trans a b c :
  not_after urgent_then_newest a b -> not_after urgent_then_newest b c ->
  not_after urgent_then_newest a c.
Proof.
  unfold not_after, urgent_then_newest.
  destruct (job_is_urgent a), (job_is_urgent b), (job_is_urgent c); simpl;
    try congruence; intros H1 H2;
    apply Z.ltb_ge in H1; apply Z.ltb_ge in H2; apply Z.ltb_ge; lia.
Qed.

Lemma not_after_well_ranked a b :
  not_after urgent_then_newest a b -> well_ranked a b.
Proof.
  unfold not_after, urgent_then_newest, well_ranked.
  destruct (job_is_urgent a), (job_is_urgent b); simpl; try congruence;
    intros H; split; try congruence; intros _; apply Z.ltb_ge in H; lia.
Qed.

Lemma StronglySorted_firstn {A} (R : A -> A -> Prop) (n : nat) (l : list A) :
  StronglySorted R l -> StronglySorted R (firstn n l).
Proof.
  intros Hs. revert n. induction Hs as [|x l Hs IH Hx]; intros [|n]; simpl;
    try constructor; [apply IH|].
  rewrite Forall_forall in Hx |- *. intros y Hy.
  apply Hx. apply list_elem_of_In. apply list_elem_of_In in Hy.
  now apply In_firstn in Hy.
Qed.

Lemma StronglySorted_weaken {A} (R S : A -> A -> Prop) (l : list A) :
  (forall a b, R a b -> S a b) -> StronglySorted R l -> StronglySorted S l.
Proof.
  intros HRS. induction 1 as [|x l Hs IH Hx]; constructor; [assumption|].
  rewrite Forall_forall in Hx |- *. auto.
Qed.

(** X11: For a user without a location [get_recommended_jobs] returns at most
    [limit] jobs, all published with an event today or later, each requiring
    a skill of the user when the user has any, urgent jobs first and newer
    before older among equally urgent ones. *)
Theorem get_recommended_jobs_without_location
    (self : User) (limit : nat) (today : Z) (db : DB) :
  location self = "" ->
  exists result,
    get_recommended_jobs self limit today db = (Ok result, db)
    /\ (length result <= limit)%nat
    /\ (forall j, In j result ->
                  In j (jobs db) /\ job_status j = "published"
                  /\ today <= job_event_date j
                  /\ (skill_pks self db <> ∅ ->
                      exists s, s ∈ skill_pks self db
                                /\ (job_pk j, s) ∈ job_required_skills db))
    /\ StronglySorted well_ranked result.
Proof.
  intros Hloc. unfold get_recommended_jobs. rewrite !bind_query, Hloc.
  cbn [PyStr.truthy].
  destruct (bool_decide (skill_pks self db = ∅)) eqn:Hs; cbn [negb].
  - apply bool_decide_eq_true in Hs.
    eexists. split; [reflexivity|].
    split; [apply firstn_le_length|]. split.
    + intros j Hj. apply In_firstn, In_order_by, In_published_from in Hj
        as (H1 & H2 & H3).
      repeat split; try assumption. congruence.
    + apply StronglySorted_firstn.
      apply (StronglySorted_weaken _ _ _ not_after_well_ranked).
      apply order_by_sorted;
        [apply urgent_then_newest_asym | apply urgent_then_newest_trans].
  - eexists. split; [reflexivity|].
    split; [apply firstn_le_length|]. split.
    + intros j Hj. apply In_firstn, In_order_by in Hj.
      unfold filter_required_skills in Hj. apply filter_In in Hj as [Hj Hreq].
      apply In_published_from in Hj as (H1 & H2 & H3).
      repeat split; try assumption. intros _.
      apply existsb_exists in Hreq as (s & Hin & Hdec).
      exists s. split.
      * now apply elem_of_elements, list_elem_of_In.
      * now apply bool_decide_eq_true in Hdec.
    + apply StronglySorted_firstn.
      apply (StronglySorted_weaken _ _ _ not_after_well_ranked).
      apply order_by_sorted;
        [apply urgent_then_newest_asym | apply urgent_then_newest_trans].
Qed.

Lemma get_recommended_jobs_without_location_witness :
  exists result,
    get_recommended_jobs user_C_nowhere 6 today_C db_C = (Ok result, db_C)
    /\ (length result <= 6)%nat
    /\ (forall j, In j result ->
                  In j (jobs db_C) /\ job_status j = "published"
                  /\ today_C <= job_event_date j
                  /\ (skill_pks user_C_nowhere db_C <> ∅ ->
                      exists s, s ∈ skill_pks user_C_nowhere db_C
                                /\ (job_pk j, s) ∈ job_required_skills db_C))
    /\ StronglySorted well_ranked result.
Proof.
  apply (get_recommended_jobs_without_location user_C_nowhere 6 today_C db_C).
  reflexivity.
Defined.

End RecommendationsWithoutLocation.

(** ** What skill inference detects and writes *)

Section Detection.
Import Accounts SkillSpec More Scenario.

Lemma triggers_existsb (lex : list (string * list string)) text name :
  (exists keywords, In (name, keywords) lex
                    /\ existsb (fun keyword => PyStr.contains keyword text) keywords = true)
  <-> (exists keywords, In (name, keywords) lex
                        /\ exists keyword, In keyword keywords
                                           /\ PyStr.contains keyword text = true).
Proof.
  split; intros (kws & Hin & H); exists kws; (split; [assumption|]);
    now apply existsb_exists.
Qed.

Lemma detect_in_spec (text : string) (d : gset string) (x : string) :
  x ∈ detect_in text d <-> x ∈ d \/ triggers text x.
Proof.
  unfold detect_in, triggers. rewrite <- triggers_existsb.
  generalize skill_keywords as lex. intros lex. revert d.
  induction lex as [|[n kws] lex IH]; intros d; cbn [fold_left].
  - split; [now left | intros [H | (k & [] & _)]; assumption].
  - rewrite IH. split.
    + intros [Hd | (k & Hin & Hex)].
      * destruct (existsb _ kws) eqn:E.
        -- apply elem_of_union in Hd as [Hd | Hn]; [now left|].
           apply elem_of_singleton in Hn. subst x.
           right. exists kws. split; [now left | assumption].
        -- now left.
      * right. exists k. split; [now right | assumption].
    + intros [Hd | (k & [Heq | Hin] & Hex)].
      * left. destruct (existsb _ kws); [apply elem_of_union; now left | assumption].
      * injection Heq as -> ->. left. rewrite Hex.
        apply elem_of_union. right. now apply elem_of_singleton.
      * right. exists k. split; assumption.
Qed.

Lemma detect_jobs_spec (js : list Job) (d : gset string) (x : string) :
  x ∈ fold_left (fun detected job => detect_in (job_text job) detected) js d
  <-> x ∈ d \/ exists j, In j js /\ triggers (job_text j) x.
Proof.
  revert d. induction js as [|j js IH]; intros d; cbn [fold_left].
  - split; [now left | intros [H | (j & [] & _)]; assumption].
  - rewrite IH, detect_in_spec. split.
    + intros [[Hd | Ht] | (j' & Hin & Ht)].
      * now left.
      * right. exists j. split; [now left | assumption].
      * right. exists j'. split; [now right | assumption].
    + intros [Hd | (j' & [<- | Hin] & Ht)].
      * left. now left.
      * left. now right.
      * right. exists j'. split; assumption.
Qed.

Lemma detect_apps_spec (ps : list (JobApplication * Job)) (d : gset string) (x : string) :
  x ∈ fold_left (fun detected '(app, job) => detect_in (app_text app job) detected) ps d
  <-> x ∈ d \/ exists a j, In (a, j) ps /\ triggers (app_text a j) x.
Proof.
  revert d. induction ps as [|[a j] ps IH]; intros d; cbn [fold_left].
  - split; [now left | intros [H | (a & j & [] & _)]; assumption].
  - rewrite IH, detect_in_spec. split.
    + intros [[Hd | Ht] | (a' & j' & Hin & Ht)].
      * now left.
      * right. exists a, j. split; [now left | assumption].
      * right. exists a', j'. split; [now right | assumption].
    + intros [Hd | (a' & j' & [[= <- <-] | Hin] & Ht)].
      * left. now left.
      * left. now right.
      * right. exists a', j'. split; assumption.
Qed.

(** A category is detected exactly when one of its keywords occurs in one
    of the texts read for the user. *)
Lemma detected_skills_spec (self : User) (db : DB) (x : string) :
  x ∈ detected_skills self db
  <-> exists text, In text (texts_of self db) /\ triggers text x.
Proof.
  unfold detected_skills, texts_of.
  rewrite detect_jobs_spec, detect_apps_spec. split.
  - intros [[Hd | (a & j & Hin & Ht)] | (j & Hin & Ht)].
    + now apply not_elem_of_empty in Hd.
    + exists (app_text a j). split; [|assumption].
      apply in_or_app. left. apply in_map_iff. exists (a, j). now split.
    + exists (job_text j). split; [|assumption].
      apply in_or_app. right. now apply in_map.
  - intros (text & Hin & Ht). apply in_app_or in Hin as [Hin | Hin].
    + apply in_map_iff in Hin as ([a j] & <- & Hin). left. right. now exists a, j.
    + apply in_map_iff in Hin as (j & <- & Hin). right. now exists j.
Qed.

End Detection.

Section InferenceWrites.
Import Accounts SkillSpec More Scenario.

Variable self : User.

(** One round of the last loop: the skill of that name is there afterwards
    and linked to the user; nothing else is linked. *)
Lemma add_one_frame (n : string) (db : DB) :
  exists db' s,
    add_one self n db = (Ok tt, db')
    /\ skills db' !! skill_title n = Some s
    /\ user_skills db' = {[ (user_pk self, skill_pk s) ]} ∪ user_skills db
    /\ (skills_wf db -> skills_wf db').
Proof.
  unfold add_one, bind, get_or_create, skills_add.
  destruct (skills db !! skill_title n) as [s|] eqn:Hget; cbn.
  - exists (mkDB (jobs db) (applications db) (reviews db) (skills db)
                 (next_skill_pk db)
                 ({[ (user_pk self, skill_pk s) ]} ∪ user_skills db)
                 (job_required_skills db)), s.
    split; [reflexivity|]. split; [assumption|]. split; [reflexivity|].
    intros Hwf. exact Hwf.
  - eexists _, _. split; [reflexivity|]. cbn.
    split; [apply lookup_insert_eq|]. split; [reflexivity|].
    intros [Hrow Hinj]. split; cbn.
    + intros name s Hs. rewrite lookup_insert in Hs.
      destruct (decide (skill_title n = name)) as [<- | Hne].
      * injection Hs as <-. cbn. split; [reflexivity | lia].
      * destruct (Hrow name s Hs). split; [assumption | lia].
    + intros n1 n2 s1 s2 H1 H2 Hpk. rewrite lookup_insert in H1, H2.
      destruct (decide (skill_title n = n1)) as [<- | Hne1],
               (decide (skill_title n = n2)) as [<- | Hne2]; try reflexivity.
      * injection H1 as <-. cbn in Hpk. destruct (Hrow n2 s2 H2). lia.
      * injection H2 as <-. cbn in Hpk. destruct (Hrow n1 s1 H1). lia.
      * eapply Hinj; eassumption.
Qed.

Lemma add_detected_frame (names : list string) (db : DB) :
  exists db1,
    add_detected self names db = (Ok tt, db1)
    /\ (skills_wf db -> skills_wf db1)
    /\ (forall u pk, (u, pk) ∈ user_skills db1 ->
                     (u, pk) ∈ user_skills db
                     \/ (u = user_pk self
                         /\ exists n s, n ∈ names
                                        /\ skills db1 !! skill_title n = Some s
                                        /\ skill_pk s = pk)).
Proof.
  revert db. induction names as [|n names IH]; intros db.
  - exists db. split; [reflexivity|]. split; [trivial|]. intros u pk H. now left.
  - destruct (add_one_frame n db) as (db' & s & Hrun & Hs & Hus & Hwf).
    destruct (IH db') as (db1 & Hrun1 & Hwf1 & Hnew).
    destruct (add_detected_extends self names db')
      as (db1' & Hrun1' & (_ & _ & _ & _ & Hrows & _) & _).
    assert (db1' = db1) by congruence. subst db1'.
    exists db1. split.
    + unfold add_detected; cbn [for_each].
      now rewrite (bind_ok _ _ _ _ _ Hrun).
    + split; [auto|]. intros u pk Hin.
      destruct (Hnew u pk Hin) as [Hold | (-> & m & s' & Hm & Hs' & Hpk)].
      * rewrite Hus in Hold. apply elem_of_union in Hold as [Hone | Hold];
          [|now left].
        apply elem_of_singleton in Hone. injection Hone as -> ->.
        right. split; [reflexivity|]. exists n, s.
        split; [apply list_elem_of_here|]. split; [now apply Hrows | reflexivity].
      * right. split; [reflexivity|]. exists m, s'.
        split; [now apply list_elem_of_further | now split].
Qed.

End InferenceWrites.

Section InferenceClaims.
Import Accounts SkillSpec More Scenario.

(** X12: skill inference gives the user the skill of every category one of whose
    keywords occurs in the user's texts, whatever the user had before. *)
Theorem auto_detect_skills_assigns_triggered
    (order : gset string -> list string) (self : User) (db : DB) (name text : string) :
  enumerates order ->
  In text (texts_of self db) -> triggers text name ->
  exists db1 s,
    auto_detect_skills order self db = (Ok tt, db1)
    /\ skills db1 !! skill_title name = Some s
    /\ skill_pk s ∈ skill_pks self db1.
Proof.
  intros Ho Hin Ht.
  destruct (add_detected_extends self (order (detected_skills self db)) db)
    as (db1 & Hrun & _ & Hreg).
  assert (Hn : name ∈ order (detected_skills self db)).
  { apply Ho, detected_skills_spec. now exists text. }
  rewrite Forall_forall in Hreg. destruct (Hreg name Hn) as (s & Hs & Hlink).
  exists db1, s. split; [unfold auto_detect_skills; now rewrite bind_query|].
  split; [assumption|].
  unfold skill_pks. apply elem_of_map. exists (user_pk self, skill_pk s).
  split; [reflexivity|]. apply elem_of_filter. now split.
Qed.

Lemma auto_detect_skills_assigns_triggered_witness :
  exists db1 s,
    auto_detect_skills elements volunteer_D db_F = (Ok tt, db1)
    /\ skills db1 !! skill_title "catering" = Some s
    /\ skill_pk s ∈ skill_pks volunteer_D db1.
Proof.
  apply (auto_detect_skills_assigns_triggered elements volunteer_D db_F "catering"
           "trade fair front desk at the fair i serve food").
  - exact enumerates_elements.
  - cbn. left. reflexivity.
  - exists ["food"; "catering"; "kitchen"; "serve"]. split.
    + cbn. do 6 right. left. reflexivity.
    + exists "food". split; [now left | reflexivity].
Defined.

(** X13: skill inference links skills to the given user only: every other
    user's skills stay as they were, and each link it adds is to the skill
    named after a category that was triggered by the user's texts. *)
Theorem auto_detect_skills_writes_only_triggered
    (order : gset string -> list string) (self : User) (db : DB) :
  enumerates order ->
  exists db1,
    auto_detect_skills order self db = (Ok tt, db1)
    /\ (forall u pk,
          (u, pk) ∈ user_skills db1 ->
          (u, pk) ∈ user_skills db
          \/ (u = user_pk self
              /\ exists name text s,
                   In text (texts_of self db) /\ triggers text name
                   /\ skills db1 !! skill_title name = Some s
                   /\ skill_pk s = pk))
    /\ (forall other, user_pk other <> user_pk self ->
                      skill_pks other db1 = skill_pks other db).
Proof.
  intros Ho.
  destruct (add_detected_frame self (order (detected_skills self db)) db)
    as (db1 & Hrun & _ & Hnew).
  destruct (add_detected_extends self (order (detected_skills self db)) db)
    as (db1' & Hrun' & (_ & _ & _ & _ & _ & Hsub) & _).
  assert (db1' = db1) by congruence. subst db1'.
  exists db1. split; [unfold auto_detect_skills; now rewrite bind_query|].
  assert (Hlinks : forall u pk,
            (u, pk) ∈ user_skills db1 ->
            (u, pk) ∈ user_skills db
            \/ (u = user_pk self
                /\ exists name text s,
                     In text (texts_of self db) /\ triggers text name
                     /\ skills db1 !! skill_title name = Some s
                     /\ skill_pk s = pk)).
  { intros u pk Hin.
    destruct (Hnew u pk Hin) as [Hold | (-> & n & s & Hn & Hs & Hpk)]; [now left|].
    right. split; [reflexivity|].
    apply Ho, detected_skills_spec in Hn as (text & Htext & Ht).
    exists n, text, s. repeat split; assumption. }
  split; [exact Hlinks|].
  intros other Hne. apply set_eq. intros pk. unfold skill_pks.
  rewrite !elem_of_map. split.
  - intros ([u pk'] & Heq & Hin). cbn in Heq. subst pk'.
    apply elem_of_filter in Hin as [Hu Hin]. cbn in Hu.
    destruct (Hlinks u pk Hin) as [Hold | (-> & _)]; [|congruence].
    exists (u, pk). split; [reflexivity|]. apply elem_of_filter. now split.
  - intros (p & Heq & Hin). apply elem_of_filter in Hin as [Hu Hin].
    exists p. split; [assumption|]. apply elem_of_filter. split; [assumption|].
    now apply Hsub.
Qed.

Lemma auto_detect_skills_writes_only_triggered_witness :
  exists db1,
    auto_detect_skills elements volunteer_D db_F = (Ok tt, db1)
    /\ (forall u pk,
          (u, pk) ∈ user_skills db1 ->
          (u, pk) ∈ user_skills db_F
          \/ (u = user_pk volunteer_D
              /\ exists name text s,
                   In text (texts_of volunteer_D db_F) /\ triggers text name
                   /\ skills db1 !! skill_title name = Some s
                   /\ skill_pk s = pk))
    /\ (forall other, user_pk other <> user_pk volunteer_D ->
                      skill_pks other db1 = skill_pks other db_F).
Proof.
  apply (auto_detect_skills_writes_only_triggered elements volunteer_D db_F).
  exact enumerates_elements.
Defined.

(** X14: For a user with no accepted application and no posted job, skill
    inference returns without touching the database. *)
Theorem auto_detect_skills_without_history
    (order : gset string -> list string) (self : User) (db : DB) :
  enumerates order ->
  (forall a, In a (applications db) -> app_volunteer_id a = user_pk self ->
             app_status a <> "accepted") ->
  (forall j, In j (jobs db) -> job_poster_id j <> user_pk self) ->
  auto_detect_skills order self db = (Ok tt, db).
Proof.
  intros Ho Happs Hjobs.
  assert (Htexts : texts_of self db = []).
  { unfold texts_of.
    assert (Ha : accepted_apps self db = []).
    { unfold accepted_apps. induction (applications db) as [|a apps IH];
        [reflexivity|].
      cbn [flat_map]. rewrite IH by (intros a' Ha'; apply Happs; now right).
      destruct (Nat.eqb_spec (app_volunteer_id a) (user_pk self)) as [Heq | _];
        [|reflexivity].
      destruct (String.eqb_spec (app_status a) "accepted") as [Hst | _];
        [|reflexivity].
      exfalso. apply (Happs a); [now left | assumption | assumption]. }
    assert (Hp : posted_jobs self db = []).
    { unfold posted_jobs. induction (jobs db) as [|j js IH]; [reflexivity|].
      cbn. destruct (Nat.eqb_spec (job_poster_id j) (user_pk self)) as [Heq | _].
      - exfalso. apply (Hjobs j); [now left | assumption].
      - apply IH. intros j' Hj'. apply Hjobs. now right. }
    now rewrite Ha, Hp. }
  assert (Hnone : order (detected_skills self db) = []).
  { destruct (order (detected_skills self db)) as [|n ns] eqn:Hord; [reflexivity|].
    assert (Hn : n ∈ order (detected_skills self db))
      by (rewrite Hord; apply list_elem_of_here).
    apply Ho, detected_skills_spec in Hn as (text & Hin & _).
    rewrite Htexts in Hin. destruct Hin. }
  unfold auto_detect_skills. rewrite bind_query, Hnone. reflexivity.
Qed.

End InferenceClaims.

Section InferenceInvariant.
Import Accounts SkillSpec More Scenario.

Lemma auto_detect_skills_without_history_witness :
  auto_detect_skills elements user_A db_A = (Ok tt, db_A).
Proof.
  apply (auto_detect_skills_without_history elements user_A db_A).
  - exact enumerates_elements.
  - intros a [].
  - intros j [].
Defined.

(** X15: skill inference keeps the skill table consistent: every row stays
    stored under its own name with a primary key below the counter, and no
    two rows get the same primary key. *)
Theorem auto_detect_skills_keeps_skill_keys
    (order : gset string -> list string) (self : User) (db : DB) :
  skills_wf db ->
  exists db1,
    auto_detect_skills order self db = (Ok tt, db1) /\ skills_wf db1.
Proof.
  intros Hwf.
  destruct (add_detected_frame self (order (detected_skills self db)) db)
    as (db1 & Hrun & Hwf1 & _).
  exists db1. split; [unfold auto_detect_skills; now rewrite bind_query | auto].
Qed.

Lemma auto_detect_skills_keeps_skill_keys_witness :
  exists db1,
    auto_detect_skills elements volunteer_D db_F = (Ok tt, db1) /\ skills_wf db1.
Proof.
  apply (auto_detect_skills_keeps_skill_keys elements volunteer_D db_F).
  split.
  - intros name s H. cbn in H. rewrite lookup_empty in H. discriminate H.
  - intros n1 n2 s1 s2 H. cbn in H. rewrite lookup_empty in H. discriminate H.
Defined.

End InferenceInvariant.

(** ** Location search of the job list *)

Section LocationSearch.
Import Accounts More Scenario JobsViews.

Lemma location_queries_from (parts : list string) (q0 : Qobj) (p : string) :
  In p (fold_left
          (fun (q : Qobj) part =>
             let part := PyStr.strip part in
             if PyStr.truthy part then (q ++ [part])%list else q)
          parts q0)
  <-> In p q0 \/ exists part, In part parts /\ PyStr.strip part = p /\ p <> "".
Proof.
  revert q0. induction parts as [|part parts IH]; intros q0; cbn [fold_left].
  - split; [now left | intros [H | (x & [] & _)]; assumption].
  - rewrite IH. split.
    + intros [Hq | (x & Hin & Hx)].
      * destruct (PyStr.strip part) as [|c r] eqn:Hs; cbn [PyStr.truthy] in Hq.
        -- now left.
        -- apply in_app_or in Hq as [Hq | [<- | []]]; [now left|].
           right. exists part. split; [now left|]. split; [assumption | discriminate].
      * right. exists x. split; [now right | assumption].
    + intros [Hq | (x & [<- | Hin] & Hx & Hne)].
      * left. destruct (PyStr.truthy (PyStr.strip part)); [|assumption].
        apply in_or_app. now left.
      * left. rewrite Hx. destruct p as [|c r]; [congruence|]. cbn [PyStr.truthy].
        apply in_or_app. right. now left.
      * right. exists x. repeat split; assumption.
Qed.

Lemma location_queries_spec (parts : list string) (p : string) :
  In p (location_queries parts)
  <-> exists part, In part parts /\ PyStr.strip part = p /\ p <> "".
Proof.
  unfold location_queries. rewrite location_queries_from.
  split; [intros [[] | H]; exact H | intros H; now right].
Qed.

(** X16: The location search of [job_list] never raises and reads only.  When
    no comma-separated part of the location is left after trimming (an empty
    location, or only commas and blanks) it keeps every job; otherwise it
    keeps exactly the jobs whose location contains one of the trimmed parts,
    whatever the case of the letters. *)
Theorem job_list_location_filter_keeps (location : string) (rows : list Job) (db : DB) :
  let parts := PyStr.split "," (PyStr.lower location) in
  exists result,
    job_list_location_filter location rows db = (Ok result, db)
    /\ ((forall part, In part parts -> PyStr.strip part = "") -> result = rows)
    /\ forall j,
         In j result
         <-> In j rows
             /\ ((forall part, In part parts -> PyStr.strip part = "")
                 \/ exists part, In part parts /\ PyStr.strip part <> ""
                                 /\ icontains (PyStr.strip part) (job_location j) = true).
Proof.
  intros parts.
  destruct (PyStr.truthy location) eqn:Ht.
  2:{ destruct location; [|discriminate Ht].
      exists rows. split; [reflexivity|].
      split; [reflexivity|]. intros j. split.
      + intros H. split; [assumption|]. left.
        intros part [<- | []]. reflexivity.
      + now intros [H _]. }
  - exists (filter_location_Q (location_queries parts) rows).
    split; [unfold job_list_location_filter; rewrite Ht; reflexivity|].
    assert (Hnil : (forall part, In part parts -> PyStr.strip part = "")
                   <-> location_queries parts = []).
    { split.
      - intros Hall. destruct (location_queries parts) as [|p q] eqn:Hq;
          [reflexivity|].
        assert (Hp : In p (location_queries parts)) by (rewrite Hq; now left).
        apply location_queries_spec in Hp as (part & Hin & Hs & Hne).
        rewrite (Hall part Hin) in Hs. congruence.
      - intros Hq part Hin.
        destruct (PyStr.strip part) as [|c' r] eqn:Hs; [reflexivity|].
        assert (Hp : In (PyStr.strip part) (location_queries parts)).
        { apply location_queries_spec. exists part.
          repeat split; [assumption|]. rewrite Hs. discriminate. }
        rewrite Hq in Hp. destruct Hp. }
    split.
    + intros Hall. apply Hnil in Hall. now rewrite Hall.
    + intros j. rewrite filter_location_Q_spec, <- Hnil. split.
      * intros [Hin [Hall | (p & Hp & Hc)]]; (split; [assumption|]); [now left|].
        right. apply location_queries_spec in Hp as (part & Hpart & Hs & Hne).
        exists part. rewrite Hs. repeat split; assumption.
      * intros [Hin [Hall | (part & Hpart & Hne & Hc)]]; (split; [assumption|]);
          [now left|].
        right. exists (PyStr.strip part). split; [|assumption].
        apply location_queries_spec. exists part. repeat split; assumption.
Qed.

End LocationSearch.

(** ** Home page of a logged-in user *)

Section HomeAuthenticated.
Import Accounts SkillSpec More Scenario CoreViews.

(** X17: For a logged-in user with a location, [home] raises [NameError] while
    it builds the recommendations, before skill inference is reached, and
    the database is left as it was.  For a logged-in user without location
    and without skills it returns the recommendations built beforehand and
    has then given the user the skill of every detected category. *)
Theorem home_authenticated_outcome
    (order : gset string -> list string) (user : User) (today : Z) (db : DB) :
  (location user <> "" ->
   home_authenticated order user today db = (Raise (NameError "Q"), db))
  /\ (location user = "" -> skill_pks user db = ∅ -> enumerates order ->
      exists featured db1,
        home_authenticated order user today db = (Ok featured, db1)
        /\ get_recommended_jobs user 8 today db = (Ok featured, db)
        /\ auto_detect_skills order user db = (Ok tt, db1)
        /\ forall name, name ∈ detected_skills user db -> registered user name db1).
Proof.
  split.
  - intros Hloc. unfold home_authenticated. apply bind_raise.
    now apply get_recommended_jobs_location_raises.
  - intros Hloc Hnone Ho.
    destruct (proj2 (get_recommended_jobs_location_raises user 8 today db) Hloc)
      as [featured Hrec].
    destruct (add_detected_extends user (order (detected_skills user db)) db)
      as (db1 & Hrun & _ & Hreg).
    assert (Hauto : auto_detect_skills order user db = (Ok tt, db1)).
    { unfold auto_detect_skills. now rewrite bind_query. }
    exists featured, db1. split.
    + unfold home_authenticated.
      rewrite (bind_ok _ _ _ _ _ Hrec), bind_query, Hnone.
      rewrite bool_decide_eq_true_2 by reflexivity. cbn [negb].
      now rewrite (bind_ok _ _ _ _ _ Hauto).
    + split; [assumption|]. split; [assumption|].
      intros name Hn. rewrite Forall_forall in Hreg. now apply Hreg, Ho.
Qed.

Lemma home_authenticated_outcome_witness :
  home_authenticated elements user_C today_C db_C = (Raise (NameError "Q"), db_C).
Proof.
  apply (proj1 (home_authenticated_outcome elements user_C today_C db_C)).
  discriminate.
Defined.

End HomeAuthenticated.
